(** * Humanivio API: the request pipeline of [server.js], embedded in Rocq

  The development follows the source files of the repository:

  - [src/server.js]: the current handler (configurable daily limit,
    root route, optional chaining on the upstream reply);
  - [src/unnamed/part_000]: the earlier handler (fixed limit of 10,
    no guard on the upstream reply).

  JavaScript strings are sequences of UTF-16 code units, JSON bodies are
  a small value type, the Express application is a function from an
  incoming request and a world (quota store, upstream log, console) to a
  response and a world: the body parser first, then the layers behind
  it. *)

From Stdlib Require Import ZArith NArith List Bool Lia.
From Stdlib Require Import Ascii.
From Stdlib Require String.
From Stdlib Require Import SpecFloat QArith.
From stdpp Require Import gmap strings list.

Import ListNotations.
Set Warnings "-register-all".
Set Default Proof Using "Type".
Local Open Scope Z_scope.

(** ** JavaScript strings *)

Module JsString.

(** A JavaScript string is a sequence of 16-bit code units. *)
Definition code_unit := N.
Definition jsstring := list code_unit.

(** Literals of the source are ASCII; [lit] turns one into code units. *)
Definition lit (s : string) : jsstring :=
  map Ascii.N_of_ascii (String.list_ascii_of_string s).

(** [WhiteSpace] and [LineTerminator] of ECMAScript: the characters that
    [String.prototype.trim] strips and that the class [\s] matches. *)
Definition is_space (c : code_unit) : bool :=
  ((9 <=? c) && (c <=? 13) (* TAB LF VT FF CR *)
   || (c =? 32)            (* SPACE *)
   || (c =? 160)           (* NO-BREAK SPACE *)
   || (c =? 5760)          (* U+1680 *)
   || (8192 <=? c) && (c <=? 8202) (* U+2000 .. U+200A *)
   || (c =? 8232) || (c =? 8233)   (* U+2028, U+2029 *)
   || (c =? 8239)          (* U+202F *)
   || (c =? 8287)          (* U+205F *)
   || (c =? 12288)         (* U+3000 *)
   || (c =? 65279)         (* U+FEFF *))%N.

(** [String.prototype.trimStart]. *)
Fixpoint trimStart (s : jsstring) : jsstring :=
  match s with
  | [] => []
  | c :: r => if is_space c then trimStart r else s
  end.

(** [String.prototype.trimEnd]. *)
Fixpoint trimEnd (s : jsstring) : jsstring :=
  match s with
  | [] => []
  | c :: r =>
      match trimEnd r with
      | [] => if is_space c then [] else [c]
      | r' => c :: r'
      end
  end.

(** [String.prototype.trim]. *)
Definition trim (s : jsstring) : jsstring := trimEnd (trimStart s).

(** [s.split(/\s+/)], that is [RegExp.prototype[Symbol.split]] for the
    pattern [\s+] without a limit.  The built-in scans the string from
    left to right; [cur] holds (reversed) the code units since the end
    of the last separator, [in_sep] tells that the previous code unit
    belonged to a separator (the greedy match of [\s+] swallows the
    whole run).  At each separator the pending substring is pushed, also
    when it is empty; at the end of the string the rest is pushed, also
    when it is empty.  The empty string gives the one-element array
    holding the empty string. *)
Fixpoint split_go (in_sep : bool) (cur : jsstring) (s : jsstring)
  : list jsstring :=
  match s with
  | [] => [rev cur]
  | c :: r =>
      if is_space c then
        if in_sep then split_go true [] r
        else rev cur :: split_go true [] r
      else split_go false (c :: cur) r
  end.

Definition split_ws (s : jsstring) : list jsstring := split_go false [] s.

(** The whitespace-delimited tokens of a string, as the specification
    speaks of them: the maximal runs of code units that are not white
    space.  This definition follows the words of the specification and
    is compared with [split_ws] below. *)
Definition emit (cur : jsstring) : list jsstring :=
  match cur with
  | [] => []
  | _ => [rev cur]
  end.

Fixpoint tokens_go (cur : jsstring) (s : jsstring) : list jsstring :=
  match s with
  | [] => emit cur
  | c :: r =>
      if is_space c then emit cur ++ tokens_go [] r
      else tokens_go (c :: cur) r
  end.

Definition ws_tokens (s : jsstring) : list jsstring := tokens_go [] s.

Definition token_count (s : jsstring) : Z := Z.of_nat (length (ws_tokens s)).

(** A string whose last code unit, if any, is not white space. *)
Fixpoint ends_clean (s : jsstring) : bool :=
  match s with
  | [] => true
  | c :: r =>
      match r with
      | [] => negb (is_space c)
      | _ => ends_clean r
      end
  end.

Definition starts_clean (s : jsstring) : bool :=
  match s with
  | [] => true
  | c :: _ => negb (is_space c)
  end.

End JsString.

Import JsString.

(** ** JavaScript values *)

Module JsValue.

(** The values that reach the handler: a parsed JSON body, the reply of the
    upstream client, and [undefined] for what is absent.  Numbers are IEEE
    754 doubles, given by sign, mantissa and exponent. *)
Inductive jsval :=
| VUndefined
| VNull
| VBool (b : bool)
| VNum (x : spec_float)
| VStr (s : jsstring)
| VArr (items : list jsval)
| VObj (fields : list (string * jsval)).

(** [ToBoolean]: what [!v], [v || w] and [v ? a : b] test. *)
Definition truthy (v : jsval) : bool :=
  match v with
  | VUndefined | VNull => false
  | VBool b => b
  | VNum (S754_zero _) | VNum S754_nan => false
  | VNum _ => true
  | VStr [] => false
  | VStr _ => true
  | VArr _ | VObj _ => true
  end.

Definition is_string (v : jsval) : bool :=
  match v with
  | VStr _ => true
  | _ => false
  end.

Definition nullish (v : jsval) : bool :=
  match v with
  | VUndefined | VNull => true
  | _ => false
  end.

(** Own property of an object literal, [undefined] when it has none. *)
Fixpoint field (k : string) (fields : list (string * jsval)) : jsval :=
  match fields with
  | [] => VUndefined
  | (k', v) :: rest => if String.eqb k k' then v else field k rest
  end.

(** [v.k] for a value that is not nullish and a key [k] that is no
    property of the built-in prototypes ([text], [choices], [message],
    [content], [code]). *)
Definition prop (v : jsval) (k : string) : jsval :=
  match v with
  | VObj fields => field k fields
  | _ => VUndefined
  end.

(** [v[0]] for a value that is not nullish. *)
Definition first (v : jsval) : jsval :=
  match v with
  | VArr (x :: _) => x
  | VStr (c :: _) => VStr [c]
  | VObj fields => field "0" fields
  | _ => VUndefined
  end.

(** [v === 'literal']. *)
Definition strict_eq_lit (v : jsval) (s : string) : bool :=
  match v with
  | VStr t => bool_decide (t = lit s)
  | _ => false
  end.

(** [a || b]. *)
Definition or_else (a b : jsval) : jsval := if truthy a then a else b.

End JsValue.

Import JsValue.

(** ** The world of a request: quota store, upstream service, console *)

Module World.

(** What a [throw] carries, as far as the [catch] block looks at it: the
    [code] property.  A [TypeError] of the runtime has none. *)
Inductive js_error :=
| TypeError
| UpstreamError (code : jsval).

Definition error_code (e : js_error) : jsval :=
  match e with
  | TypeError => VUndefined
  | UpstreamError c => c
  end.

(** The argument of [openai.chat.completions.create]. *)
Record chat_request := {
  model : string;
  system_content : string;
  user_content : jsval;
  max_tokens : Z;
  temperature : Q;
  presence_penalty : Q;
  frequency_penalty : Q
}.

(** The awaited promise either resolves to the completion object or
    rejects with an error. *)
Inductive upstream_outcome :=
| Resolved (completion : jsval)
| Rejected (error : js_error).

(** The upstream service is opaque: its answer may depend on the request
    and on how many calls came before. *)
Definition upstream := nat -> chat_request -> upstream_outcome.

Inductive log_line :=
| LogProcessing (wordCount : Z)
| LogSuccess
| LogError (e : js_error).

(** One record per client of the quota tracker. *)
Record quota_record := {
  consumed : Z;
  window_start : Z
}.

Record world := {
  quota : gmap string quota_record;
  upstream_log : list chat_request;
  console : list log_line
}.

Definition with_quota (q : gmap string quota_record) (w : world) : world :=
  {| quota := q; upstream_log := upstream_log w; console := console w |}.

(** Computations of a handler body: they read and change the world and
    either return or throw. *)
Inductive outcome (A : Type) :=
| Return (a : A)
| Throw (e : js_error).

Arguments Return {A} a.
Arguments Throw {A} e.

Definition M (A : Type) : Type := world -> outcome A * world.

Definition ret {A} (a : A) : M A := fun w => (Return a, w).

Definition throw {A} (e : js_error) : M A := fun w => (Throw e, w).

Definition bind {A B} (m : M A) (k : A -> M B) : M B :=
  fun w =>
    match m w with
    | (Return a, w') => k a w'
    | (Throw e, w') => (Throw e, w')
    end.

(** [try { m } catch (error) { h error }] where the [catch] block itself
    does not throw. *)
Definition try_catch {A} (m : M A) (h : js_error -> world -> A * world)
  : world -> A * world :=
  fun w =>
    match m w with
    | (Return a, w') => (a, w')
    | (Throw e, w') => h e w'
    end.

Definition console_log (l : log_line) : M unit :=
  fun w =>
    (Return tt,
     {| quota := quota w; upstream_log := upstream_log w;
        console := console w ++ [l] |}).

(** [await openai.chat.completions.create(req)]: the call is recorded and
    the service answers. *)
Definition await_create (openai : upstream) (req : chat_request) : M jsval :=
  fun w =>
    let w' := {| quota := quota w; upstream_log := upstream_log w ++ [req];
                 console := console w |} in
    match openai (length (upstream_log w)) req with
    | Resolved c => (Return c, w')
    | Rejected e => (Throw e, w')
    end.

End World.

Import World.

(** The monad structure, for the [x ← m; k] notation of stdpp. *)
#[export] Instance M_ret : MRet M := @ret.
#[export] Instance M_bind : MBind M := fun A B k m => bind m k.

(** ** Dates *)

Module JsDate.

Definition msPerDay : Z := 86400000.

(** [Day(t)] and the time fields of ECMAScript, for [t] in milliseconds
    since the epoch. *)
Definition Day (t : Z) : Z := t / msPerDay.
Definition HourFromTime (t : Z) : Z := (t / 3600000) mod 24.
Definition MinFromTime (t : Z) : Z := (t / 60000) mod 60.
Definition SecFromTime (t : Z) : Z := (t / 1000) mod 60.
Definition msFromTime (t : Z) : Z := t mod 1000.

(** Year, month (1..12) and day of the month (1..31) of a day number in
    the proleptic Gregorian calendar: [YearFromTime], [MonthFromTime] + 1
    and [DateFromTime], computed over 400-year eras that start on 1 March. *)
Definition day_of_era (d : Z) : Z := (d + 719468) mod 146097.
Definition year_of_era (doe : Z) : Z :=
  (doe - doe / 1460 + doe / 36524 - doe / 146096) / 365.
Definition day_of_year (doe : Z) : Z :=
  let yoe := year_of_era doe in
  doe - (365 * yoe + yoe / 4 - yoe / 100).
Definition month_index (doe : Z) : Z := (5 * day_of_year doe + 2) / 153.

Definition MonthFromDay (d : Z) : Z :=
  let mp := month_index (day_of_era d) in
  if mp <? 10 then mp + 3 else mp - 9.

Definition DateFromDay (d : Z) : Z :=
  let doe := day_of_era d in
  day_of_year doe - (153 * month_index doe + 2) / 5 + 1.

Definition YearFromDay (d : Z) : Z :=
  let era := (d + 719468) / 146097 in
  let y := year_of_era (day_of_era d) + era * 400 in
  if MonthFromDay d <=? 2 then y + 1 else y.

Definition digit (n : Z) : Ascii.ascii :=
  Ascii.ascii_of_N (48 + Z.to_N (n mod 10)).

(** The [width] low decimal digits of [n], most significant first. *)
Fixpoint pad (width : nat) (n : Z) : string :=
  match width with
  | O => EmptyString
  | S w => String (digit (n / 10 ^ Z.of_nat w)) (pad w n)
  end.

(** Four digits for the years 0 to 9999, a sign and six digits otherwise. *)
Definition year_string (y : Z) : string :=
  if (0 <=? y) && (y <=? 9999) then pad 4 y
  else (if y <? 0 then "-" else "+") +:+ pad 6 (Z.abs y).

(** [Date.prototype.toISOString] of a valid time value. *)
Definition toISOString (t : Z) : string :=
  year_string (YearFromDay (Day t)) +:+ "-" +:+ pad 2 (MonthFromDay (Day t))
  +:+ "-" +:+ pad 2 (DateFromDay (Day t))
  +:+ "T" +:+ pad 2 (HourFromTime t) +:+ ":" +:+ pad 2 (MinFromTime t)
  +:+ ":" +:+ pad 2 (SecFromTime t) +:+ "." +:+ pad 3 (msFromTime t) +:+ "Z".

(** The time values of a [Date]: at most 8.64e15 ms from the epoch. *)
Definition valid_time (t : Z) : Prop := -8640000000000000 <= t <= 8640000000000000.

(** The shape of an ISO-8601 date-time in UTC, as a recogniser: a year of
    four digits (or a sign and six digits), month 01..12, day 01..31, [T],
    hour 00..23, minute and second 00..59, a fraction of three digits and
    the zone designator [Z].  This follows the format, not the code. *)
Definition is_digit (a : Ascii.ascii) : bool :=
  let n := Ascii.N_of_ascii a in ((48 <=? n) && (n <=? 57))%N.

Fixpoint read_digits (n : nat) (acc : Z) (s : string) : option (Z * string) :=
  match n with
  | O => Some (acc, s)
  | S n' =>
      match s with
      | String a r =>
          if is_digit a
          then read_digits n' (10 * acc + Z.of_N (Ascii.N_of_ascii a) - 48) r
          else None
      | EmptyString => None
      end
  end.

Definition read_char (c : Ascii.ascii) (s : string) : option string :=
  match s with
  | String a r => if Ascii.eqb a c then Some r else None
  | EmptyString => None
  end.

Definition read_field (n : nat) (lo hi : Z) (s : string) : option string :=
  match read_digits n 0 s with
  | Some (v, r) => if (lo <=? v) && (v <=? hi) then Some r else None
  | None => None
  end.

Definition read_year (s : string) : option string :=
  match s with
  | String a r =>
      if Ascii.eqb a "+"%char || Ascii.eqb a "-"%char
      then read_field 6 0 999999 r
      else read_field 4 0 9999 s
  | EmptyString => None
  end.

Definition is_iso8601 (s : string) : bool :=
  match
    (s1 ← read_year s; s2 ← read_char "-"%char s1;
     s3 ← read_field 2 1 12 s2; s4 ← read_char "-"%char s3;
     s5 ← read_field 2 1 31 s4; s6 ← read_char "T"%char s5;
     s7 ← read_field 2 0 23 s6; s8 ← read_char ":"%char s7;
     s9 ← read_field 2 0 59 s8; s10 ← read_char ":"%char s9;
     s11 ← read_field 2 0 59 s10; s12 ← read_char "."%char s11;
     s13 ← read_field 3 0 999 s12; read_char "Z"%char s13)
  with
  | Some EmptyString => true
  | _ => false
  end.

End JsDate.

Import JsDate.

(** ** Quota tracker *)

Module RateLimiterMemory.

(** The options the source passes to [new rateLimit.RateLimiterMemory]:
    [points] requests per key, [duration] in seconds. *)
Record options := {
  points : Z;
  duration : Z
}.

Definition duration_ms (o : options) : Z := duration o * 1000.

(** The window of a record is active until [duration] has elapsed since
    its start. *)
Definition window_active (o : options) (now : Z) (r : quota_record) : bool :=
  now - window_start r <? duration_ms o.

(** The record a call works on: the stored one while its window is
    active, a fresh window starting now with the counter at 0 for a client
    seen for the first time or whose window has elapsed. *)
Definition current_record (o : options) (now : Z) (key : string)
  (store : gmap string quota_record) : quota_record :=
  match store !! key with
  | Some r =>
      if window_active o now r then r
      else {| consumed := 0; window_start := now |}
  | None => {| consumed := 0; window_start := now |}
  end.

(** Modelled from the spec: [RateLimiterMemory.prototype.consume] of the
    package rate-limiter-flexible, which the source requires but which is
    not part of the repository.  Section 4.1 of the specification: each
    call either increments the consumed-count of the client's current
    window and admits, or, when the consumed-count has already reached the
    capacity within the still-active window, rejects without incrementing
    further; a new window starts the first time a client is seen or once
    the previous window's duration has elapsed, with the counter at 0.
    The result is [true] when the promise resolves (admitted) and [false]
    when it rejects. *)
Definition consume (o : options) (now : Z) (key : string)
  (store : gmap string quota_record) : bool * gmap string quota_record :=
  let r := current_record o now key store in
  if points o <=? consumed r then (false, <[key := r]> store)
  else
    (true,
     <[key := {| consumed := consumed r + 1;
                 window_start := window_start r |}]> store).

(** A client is exhausted when its window is active and its
    consumed-count has reached the capacity. *)
Definition exhausted (o : options) (now : Z) (key : string)
  (store : gmap string quota_record) : Prop :=
  exists r, store !! key = Some r
            /\ window_active o now r = true /\ points o <= consumed r.

End RateLimiterMemory.

(** ** Requests, responses and routing *)

Module Express.

Inductive http_method := GET | POST.

(** The route the router resolves the URL of a request to. *)
Inductive endpoint := Root | ApiHumanize | ApiHealth | Unrouted.

(** A request as the layers behind [express.json()] see it: [body] is
    what the parser has stored in [req.body]. *)
Record request := {
  method : http_method;
  path : endpoint;
  ip : string;
  body : jsval
}.

(** What [express.json()] makes of the entity of a request.  It stores a
    value in [req.body] and passes the request on (the parsed JSON, or
    what it leaves when there is nothing to parse); or it ends the request
    with an error of its own (400 for malformed JSON, 413 for an entity
    over its limit of 100kb) that no error handler of the application
    catches.  The parser belongs to a package, so its verdict is part of
    the incoming request. *)
Inductive parser_verdict :=
| Accepts (parsed : jsval)
| Rejects (code : Z).

(** A request as it arrives, before the parser has run. *)
Record incoming := {
  in_method : http_method;
  in_path : endpoint;
  in_ip : string;
  entity : parser_verdict
}.

Definition parsed_request (inc : incoming) (parsed : jsval) : request :=
  {| method := in_method inc; path := in_path inc; ip := in_ip inc;
     body := parsed |}.

Inductive payload :=
| ErrorJson (error : string)
| HumanizeJson (humanizedText : jsval) (originalWordCount : Z)
    (humanizedWordCount : Z)
| HealthJson (status : string) (service : string) (timestamp : string)
| TextBody (text : string)
| NotFound
| ErrorPage.

Record response := {
  status : Z;
  content : payload
}.

(** [res.status(code).json(body)]; [res.json(body)] and [res.send(body)]
    answer with status 200. *)
Definition json (code : Z) (b : payload) : response :=
  {| status := code; content := b |}.

(** A handler receives the time of the request, the request and the
    world. *)
Definition handler := Z -> request -> world -> response * world.

(** The layers of an application in the order of registration:
    [app.use(mw)] and [app.get(path, h)], [app.post(path, h)]. *)
Inductive layer :=
| Use (mw : Z -> request -> (world -> response * world)
            -> world -> response * world)
| Route (m : http_method) (p : endpoint) (h : handler).

Definition method_eqb (a b : http_method) : bool :=
  match a, b with
  | GET, GET | POST, POST => true
  | _, _ => false
  end.

Definition endpoint_eqb (a b : endpoint) : bool :=
  match a, b with
  | Root, Root | ApiHumanize, ApiHumanize | ApiHealth, ApiHealth
  | Unrouted, Unrouted => true
  | _, _ => false
  end.

(** The router runs the layers in order; a middleware decides whether the
    rest of the stack runs ([next]); a request no route matches gets the
    default 404. *)
Fixpoint dispatch (layers : list layer) (now : Z) (req : request)
  : world -> response * world :=
  match layers with
  | [] => fun w => (json 404 NotFound, w)
  | Use mw :: rest => mw now req (dispatch rest now req)
  | Route m p h :: rest =>
      if method_eqb (method req) m && endpoint_eqb (path req) p
      then h now req
      else dispatch rest now req
  end.

(** [cors()]: headers, which the model does not track; a GET or POST
    request is passed on. *)
Definition cors (now : Z) (inc : incoming)
  (next : incoming -> world -> response * world)
  : world -> response * world := next inc.

(** [express.json()]: the rest of the stack runs on the request with
    [req.body] set; a request whose entity the parser rejects ends here,
    with the status of the parser's error and the error page of the
    default error handler, and nothing behind the parser runs. *)
Definition express_json (now : Z) (inc : incoming)
  (next : request -> world -> response * world)
  : world -> response * world :=
  match entity inc with
  | Accepts parsed => next (parsed_request inc parsed)
  | Rejects code => fun w => (json code ErrorPage, w)
  end.

(** A list of requests served one after the other, each with the time it
    arrives at; the result pairs each request with its response. *)
Fixpoint serve_all (app : handler) (reqs : list (Z * request)) (w : world)
  : list (request * response) * world :=
  match reqs with
  | [] => ([], w)
  | (now, req) :: rest =>
      let (res, w1) := app now req w in
      let (log, w2) := serve_all app rest w1 in
      ((req, res) :: log, w2)
  end.

(** The responses that went to one client. *)
Definition responses_to (client : string) (log : list (request * response))
  : list response :=
  map snd (filter (fun e => ip (fst e) = client) log).

End Express.

Import Express.

(** ** Pieces shared by the two versions of the handler *)

Module Handler.

(** [const { text } = req.body]: destructuring a nullish body throws. *)
Definition destructure (b : jsval) (k : string) : M jsval :=
  if nullish b then throw TypeError else mret (prop b k).

(** [v.trim()]: only a string has the method; on any other value the call
    throws a [TypeError]. *)
Definition call_trim (v : jsval) : M jsstring :=
  match v with
  | VStr s => mret (trim s)
  | _ => throw TypeError
  end.

(** [v.split(/\s+/)], likewise. *)
Definition call_split (v : jsval) : M (list jsstring) :=
  match v with
  | VStr s => mret (split_ws s)
  | _ => throw TypeError
  end.

(** [v.k] and [v[0]], which throw on a nullish [v]. *)
Definition get_prop (v : jsval) (k : string) : M jsval :=
  if nullish v then throw TypeError else mret (prop v k).

Definition get_first (v : jsval) : M jsval :=
  if nullish v then throw TypeError else mret (first v).

(** [v?.k] and [v?.[0]]. *)
Definition opt_prop (v : jsval) (k : string) : jsval :=
  if nullish v then VUndefined else prop v k.

Definition opt_first (v : jsval) : jsval :=
  if nullish v then VUndefined else first v.

Definition array_length {A} (l : list A) : Z := Z.of_nat (length l).

(** The request sent upstream; only the system prompt differs in its
    bytes between the versions. *)
Definition completion_request (prompt : string) (text : jsval)
  : chat_request :=
  {| model := "gpt-4o-mini";
     system_content := prompt;
     user_content := text;
     max_tokens := 2000;
     temperature := 8 # 10;
     presence_penalty := 2 # 10;
     frequency_penalty := 3 # 10 |}.

Definition MSG_NO_TEXT : string := "Please provide text to humanize".
Definition MSG_TOO_LONG : string := "Text exceeds 1000 words limit".
Definition MSG_QUOTA : string :=
  "API quota exceeded. Please check your OpenAI account.".
Definition MSG_API_KEY : string :=
  "Invalid API key. Please check your configuration.".
Definition MSG_FAILED : string := "Failed to humanize text. Please try again.".

(** The [catch (error)] block, the same in both versions. *)
Definition on_error (error : js_error) (w : world) : response * world :=
  let w' := {| quota := quota w; upstream_log := upstream_log w;
               console := console w ++ [LogError error] |} in
  if strict_eq_lit (error_code error) "insufficient_quota"
  then (json 500 (ErrorJson MSG_QUOTA), w')
  else if strict_eq_lit (error_code error) "invalid_api_key"
  then (json 500 (ErrorJson MSG_API_KEY), w')
  else (json 500 (ErrorJson MSG_FAILED), w').

(** The validation at the head of the [try] block, the same in both
    versions: [!text || text.trim() === ''], then the word count.  It
    gives the word count, or the response that ends the request. *)
Definition validate (text : jsval) : M (response + Z) :=
  missing ← (if negb (truthy text) then mret true
             else t ← call_trim text; mret (bool_decide (t = [])));
  if (missing : bool) then mret (inl (json 400 (ErrorJson MSG_NO_TEXT)))
  else
    t ← call_trim text;
    let wordCount := array_length (split_ws t) in
    if 1000 <? wordCount then mret (inl (json 400 (ErrorJson MSG_TOO_LONG)))
    else mret (inr wordCount).

(** The health check. *)
Definition health : handler :=
  fun now req w =>
    (json 200 (HealthJson "OK" "Humanivio API" (toISOString now)), w).

End Handler.

Import Handler.

(** ** [src/server.js] *)

Module ServerJs.

(** [parseInt(process.env.RATE_LIMIT_POINTS, 10) || 1000], given what
    [parseInt] returns: an integer, or [NaN] ([None]) for an unset or
    malformed variable.  Zero and [NaN] are falsy. *)
Definition RATE_LIMIT_POINTS (parsed : option Z) : Z :=
  match parsed with
  | Some n => if n =? 0 then 1000 else n
  | None => 1000
  end.

Definition rateLimiter (parsed : option Z) : RateLimiterMemory.options :=
  {| RateLimiterMemory.points := RATE_LIMIT_POINTS parsed;
     RateLimiterMemory.duration := 24 * 60 * 60 |}.

Definition MSG_LIMIT : string :=
  "Free daily limit reached. Please try again tomorrow or consider upgrading for higher limits.".

Definition BANNER : string :=
  "✅ Humanivio API is live and ready to humanize your text!".

Definition SYSTEM_PROMPT : string :=
  "You are Humanivio — an advanced AI Humanizer built to convert AI-generated or robotic text into natural, human-sounding, and plagiarism-free writing. Your goal is to rewrite the given input text in a way that:
          - Sounds 100% written by a real human.
          - Retains the original meaning and tone.
          - Uses natural vocabulary and sentence structure.
          - Avoids repetitive patterns common in AI writing.
          - Makes the text flow naturally like human conversation.
          Output ONLY the rewritten text without any additional explanations or notes.".

(** [app.get('/', ...)]. *)
Definition root : handler :=
  fun now req w => (json 200 (TextBody BANNER), w).

(** The rate limiting middleware: [await rateLimiter.consume(req.ip)],
    then [next()], or 429 when the promise rejects. *)
Definition rate_limit (o : RateLimiterMemory.options) (now : Z)
  (req : request) (next : world -> response * world)
  : world -> response * world :=
  fun w =>
    match RateLimiterMemory.consume o now (ip req) (quota w) with
    | (true, q) => next (with_quota q w)
    | (false, q) => (json 429 (ErrorJson MSG_LIMIT), with_quota q w)
    end.

(** [completion?.choices?.[0]?.message?.content || '']. *)
Definition humanized_text (completion : jsval) : jsval :=
  or_else
    (opt_prop (opt_prop (opt_first (opt_prop completion "choices")) "message")
       "content")
    (VStr []).

(** [app.post('/api/humanize', ...)]. *)
Definition humanize (openai : upstream) : handler :=
  fun now req =>
    try_catch
      (text ← destructure (body req) "text";
       checked ← validate text;
       match checked with
       | inl rejection => mret rejection
       | inr wordCount =>
           console_log (LogProcessing wordCount);;
           completion ←
             await_create openai (completion_request SYSTEM_PROMPT text);
           let humanizedText := humanized_text completion in
           console_log LogSuccess;;
           trimmed ← call_trim humanizedText;
           humanizedWordCount ←
             (if truthy humanizedText
              then t ← call_trim humanizedText;
                   mret (array_length (split_ws t))
              else mret 0);
           mret (json 200 (HumanizeJson (VStr trimmed) wordCount
                             humanizedWordCount))
       end)
      on_error.

(** The layers behind [cors()] and [express.json()], in the order the
    source registers them. *)
Definition layers (parsed : option Z) (openai : upstream) : list layer :=
  [ Route GET Root root;
    Use (rate_limit (rateLimiter parsed));
    Route POST ApiHumanize (humanize openai);
    Route GET ApiHealth health ].

(** What a request meets once the parser has set [req.body]. *)
Definition app (parsed : option Z) (openai : upstream) : handler :=
  dispatch (layers parsed openai).

(** The application: [app.use(cors())], [app.use(express.json())], then
    the layers above. *)
Definition server (parsed : option Z) (openai : upstream) (now : Z)
  (inc : incoming) : world -> response * world :=
  cors now inc
    (fun inc1 => express_json now inc1 (app parsed openai now)).

End ServerJs.

(** ** [src/unnamed/part_000] *)

Module Part000.

Definition rateLimiter : RateLimiterMemory.options :=
  {| RateLimiterMemory.points := 10;
     RateLimiterMemory.duration := 24 * 60 * 60 |}.

Definition MSG_LIMIT : string :=
  "Daily limit exceeded. Please try again tomorrow.".

Definition SYSTEM_PROMPT : string :=
  "You are Humanivio â€” an advanced AI Humanizer built to convert AI-generated or robotic text into natural, human-sounding, and plagiarism-free writing. Your goal is to rewrite the given input text in a way that:
          - Sounds 100% written by a real human.
          - Retains the original meaning and tone.
          - Uses natural vocabulary and sentence structure.
          - Avoids repetitive patterns common in AI writing.
          - Makes the text flow naturally like human conversation.
          Output ONLY the rewritten text without any additional explanations or notes.".

Definition rate_limit (o : RateLimiterMemory.options) (now : Z)
  (req : request) (next : world -> response * world)
  : world -> response * world :=
  fun w =>
    match RateLimiterMemory.consume o now (ip req) (quota w) with
    | (true, q) => next (with_quota q w)
    | (false, q) => (json 429 (ErrorJson MSG_LIMIT), with_quota q w)
    end.

(** [app.post('/api/humanize', ...)]: the reply is read with plain
    property accesses, [completion.choices[0].message.content], and split
    without trimming. *)
Definition humanize (openai : upstream) : handler :=
  fun now req =>
    try_catch
      (text ← destructure (body req) "text";
       checked ← validate text;
       match checked with
       | inl rejection => mret rejection
       | inr wordCount =>
           console_log (LogProcessing wordCount);;
           completion ←
             await_create openai (completion_request SYSTEM_PROMPT text);
           choices ← get_prop completion "choices";
           choice ← get_first choices;
           message ← get_prop choice "message";
           humanizedText ← get_prop message "content";
           console_log LogSuccess;;
           parts ← call_split humanizedText;
           mret (json 200 (HumanizeJson humanizedText wordCount
                             (array_length parts)))
       end)
      on_error.

(** The layers behind [cors()] and [express.json()]. *)
Definition layers (openai : upstream) : list layer :=
  [ Use (rate_limit rateLimiter);
    Route POST ApiHumanize (humanize openai);
    Route GET ApiHealth health ].

Definition app (openai : upstream) : handler := dispatch (layers openai).

Definition server (openai : upstream) (now : Z) (inc : incoming)
  : world -> response * world :=
  cors now inc (fun inc1 => express_json now inc1 (app openai now)).

End Part000.

(** ** What the specification calls a valid submission *)

Module Spec.

(** The submitted text of a request: the [text] field of the body when it
    is a string; an absent field counts as the empty text. *)
Definition submitted_text (text : jsval) : jsstring :=
  match text with
  | VStr s => s
  | _ => []
  end.

(** Non-empty after trimming, and at most 1000 whitespace-delimited
    tokens. *)
Definition acceptable (s : jsstring) : bool :=
  negb (bool_decide (trim s = [])) && (token_count (trim s) <=? 1000).

(** The upstream reply carries no message content: the first choice's
    message content is absent or [null]. *)
Definition no_content (completion : jsval) : Prop :=
  nullish
    (opt_prop (opt_prop (opt_first (opt_prop completion "choices")) "message")
       "content") = true.


(** A handler that answers a reply without content with 200, the empty
    string and a word count of 0. *)
Definition empty_on_no_content (humanize : upstream -> handler)
  (prompt : string) : Prop :=
  forall openai now req w s completion,
    nullish (body req) = false ->
    prop (body req) "text" = VStr s ->
    acceptable s = true ->
    openai (length (upstream_log w)) (completion_request prompt (VStr s))
    = Resolved completion ->
    no_content completion ->
    fst (humanize openai now req w)
    = json 200 (HumanizeJson (VStr []) (token_count (trim s)) 0).

(** Requests that the rate limiting middleware sees: all but [GET /] in
    [server.js]. *)
Definition behind_limiter (req : request) : bool :=
  negb (method_eqb (method req) GET && endpoint_eqb (path req) Root).

End Spec.

Import Spec.

(** ** Sample data for the examples *)

Module Sample.

Definition w0 : world := {| quota := ∅; upstream_log := []; console := [] |}.

Definition client : string := "203.0.113.7".

Definition post (text : jsval) : request :=
  {| method := POST; path := ApiHumanize; ip := client;
     body := VObj [("text", text)] |}.

Definition get_health : request :=
  {| method := GET; path := ApiHealth; ip := client; body := VUndefined |}.

(** A POST /api/humanize of [client] as it arrives, with the verdict of
    the parser on its entity. *)
Definition arriving (v : parser_verdict) : incoming :=
  {| in_method := POST; in_path := ApiHumanize; in_ip := client;
     entity := v |}.

(** A reply of the upstream service whose first choice has the given
    content. *)
Definition completion_with (c : jsval) : jsval :=
  VObj [("choices", VArr [VObj [("message", VObj [("content", c)])]])].

Definition replying (c : jsval) : upstream :=
  fun _ _ => Resolved (completion_with c).


Definition fox : jsstring := lit "The quick brown fox.".

(** A world in which [client] has used up the default 1000 requests of a
    window that started at time 0. *)
Definition spent : world :=
  {| quota := {[ client := {| consumed := 1000; window_start := 0 |} ]};
     upstream_log := []; console := [] |}.

End Sample.

(** ** Reading a timestamp back *)

Module IsoDecode.

(** The day number of a date of the proleptic Gregorian calendar
    ([MakeDay] of ECMAScript for a month given as 1..12), the inverse of
    [YearFromDay], [MonthFromDay] and [DateFromDay]. *)
Definition days_from_civil (y m d : Z) : Z :=
  let y' := if m <=? 2 then y - 1 else y in
  let era := y' / 400 in
  let yoe := y' - era * 400 in
  let mp := if 2 <? m then m - 3 else m + 9 in
  let doy := (153 * mp + 2) / 5 + d - 1 in
  let doe := yoe * 365 + yoe / 4 - yoe / 100 + doy in
  era * 146097 + doe - 719468.

(** [MakeDate(day, MakeTime(hour, min, sec, ms))]. *)
Definition make_time (day h mi sec ms : Z) : Z :=
  day * msPerDay + h * 3600000 + mi * 60000 + sec * 1000 + ms.

Definition read_signed_year (s : string) : option (Z * string) :=
  match s with
  | String a r =>
      if Ascii.eqb a "+"%char then read_digits 6 0 r
      else if Ascii.eqb a "-"%char
           then p ← read_digits 6 0 r; Some (- fst p, snd p)
           else read_digits 4 0 s
  | EmptyString => None
  end.

(** The time value that a timestamp of the form written by
    [toISOString] denotes. *)
Definition parse_iso (s : string) : option Z :=
  y ← read_signed_year s; s1 ← read_char "-"%char (snd y);
  mo ← read_digits 2 0 s1; s2 ← read_char "-"%char (snd mo);
  d ← read_digits 2 0 s2; s3 ← read_char "T"%char (snd d);
  h ← read_digits 2 0 s3; s4 ← read_char ":"%char (snd h);
  mi ← read_digits 2 0 s4; s5 ← read_char ":"%char (snd mi);
  sec ← read_digits 2 0 s5; s6 ← read_char "."%char (snd sec);
  ms ← read_digits 3 0 s6; s7 ← read_char "Z"%char (snd ms);
  match s7 with
  | EmptyString =>
      Some (make_time (days_from_civil (fst y) (fst mo) (fst d))
              (fst h) (fst mi) (fst sec) (fst ms))
  | _ => None
  end.

End IsoDecode.

Import IsoDecode.

(** ** The content of an upstream reply *)

Module Reply.

(** What [completion?.choices?.[0]?.message?.content] evaluates to;
    [completion.choices[0].message.content] evaluates to the same value
    whenever none of its property accesses throws. *)
Definition reply_content (completion : jsval) : jsval :=
  opt_prop (opt_prop (opt_first (opt_prop completion "choices")) "message")
    "content".

(** One more array element where the text starts, or ends, with white
    space. *)
Definition edge (clean : bool) : Z := if clean then 0 else 1.

End Reply.

Import Reply.

(** * Properties *)

(** ** Trimming and splitting *)

Section Strings.

Implicit Types (s cur : jsstring) (c : code_unit).

Example split_plain :
  split_ws Sample.fox = [lit "The"; lit "quick"; lit "brown"; lit "fox."].
Proof. reflexivity. Qed.

Example split_empty : split_ws [] = [[]].
Proof. reflexivity. Qed.

Example split_blank : split_ws (lit "   ") = [[]; []].
Proof. reflexivity. Qed.

Example split_padded : split_ws (lit " a  b ") = [[]; lit "a"; lit "b"; []].
Proof. reflexivity. Qed.

Example trim_padded : trim (lit "  a  b   ") = lit "a  b".
Proof. reflexivity. Qed.

Example tokens_padded : ws_tokens (lit "  a  b   ") = [lit "a"; lit "b"].
Proof. reflexivity. Qed.

Lemma trimStart_starts_clean s : starts_clean (trimStart s) = true.
Proof.
  induction s as [|c r IH]; simpl; [reflexivity|].
  destruct (is_space c) eqn:E; [exact IH|].
  simpl. now rewrite E.
Qed.

Lemma trimEnd_nil_iff s : trimEnd s = [] <-> forallb is_space s = true.
Proof.
  induction s as [|c r IH]; simpl; [tauto|].
  destruct (trimEnd r) eqn:E.
  - destruct (is_space c); simpl.
    + rewrite <- IH. tauto.
    + split; discriminate.
  - split; [discriminate|].
    intros H. apply andb_prop in H as [_ H]. apply IH in H. discriminate.
Qed.

Lemma trimEnd_ends_clean s : ends_clean (trimEnd s) = true.
Proof.
  induction s as [|c r IH]; simpl; [reflexivity|].
  destruct (trimEnd r) eqn:E.
  - destruct (is_space c) eqn:Ec; simpl; [reflexivity|now rewrite Ec].
  - exact IH.
Qed.

Lemma trimEnd_starts_clean s :
  starts_clean s = true -> starts_clean (trimEnd s) = true.
Proof.
  destruct s as [|c r]; simpl; [easy|].
  intros H. destruct (trimEnd r); [|exact H].
  destruct (is_space c) eqn:Ec; [discriminate|].
  simpl. now rewrite Ec.
Qed.

Lemma trim_starts_clean s : starts_clean (trim s) = true.
Proof. apply trimEnd_starts_clean, trimStart_starts_clean. Qed.

Lemma trim_ends_clean s : ends_clean (trim s) = true.
Proof. apply trimEnd_ends_clean. Qed.

Lemma forallb_space_trimStart s :
  forallb is_space (trimStart s) = forallb is_space s.
Proof.
  induction s as [|c r IH]; simpl; [reflexivity|].
  destruct (is_space c) eqn:E; simpl; [exact IH|now rewrite E].
Qed.

(** The trimmed text is empty exactly for the texts made of white space
    only (the empty text among them). *)
Lemma trim_nil_iff s : trim s = [] <-> forallb is_space s = true.
Proof.
  unfold trim. rewrite trimEnd_nil_iff. now rewrite forallb_space_trimStart.
Qed.

Lemma ends_clean_tail c r : ends_clean (c :: r) = true -> ends_clean r = true.
Proof. destruct r; simpl; [reflexivity|tauto]. Qed.

(** On a text without trailing white space, the array that [split]
    builds is the list of tokens: no empty string is pushed at the end. *)
Lemma split_go_tokens s :
  ends_clean s = true ->
  (forall cur, cur <> [] -> split_go false cur s = tokens_go cur s)
  /\ (s <> [] -> split_go true [] s = tokens_go [] s).
Proof.
  induction s as [|c r IH]; intros Hend.
  - split; [|congruence]. intros [|x cur] Hcur; [congruence|reflexivity].
  - specialize (IH (ends_clean_tail _ _ Hend)). destruct IH as [IH1 IH2].
    assert (Hr : is_space c = true -> r <> []).
    { intros Hc ->. simpl in Hend. now rewrite Hc in Hend. }
    split.
    + intros cur Hcur. simpl. destruct (is_space c) eqn:Ec.
      * rewrite IH2 by auto. destruct cur; [congruence|reflexivity].
      * apply IH1. discriminate.
    + intros _. simpl. destruct (is_space c) eqn:Ec.
      * apply IH2. auto.
      * apply IH1. discriminate.
Qed.

Lemma split_ws_tokens s :
  s <> [] -> starts_clean s = true -> ends_clean s = true ->
  split_ws s = ws_tokens s.
Proof.
  destruct s as [|c r]; [congruence|]. intros _ Hs He.
  apply ends_clean_tail in He.
  unfold split_ws, ws_tokens. simpl in *.
  destruct (is_space c); [discriminate|].
  apply split_go_tokens; [exact He|discriminate].
Qed.

(** The word count of the handler is the token count of the trimmed text,
    whenever the trimmed text is not empty. *)
Lemma split_trim_count s :
  trim s <> [] -> array_length (split_ws (trim s)) = token_count (trim s).
Proof.
  intros H. unfold array_length, token_count.
  now rewrite split_ws_tokens
    by auto using trim_starts_clean, trim_ends_clean.
Qed.

Lemma tokens_go_trimEnd cur s : tokens_go cur (trimEnd s) = tokens_go cur s.
Proof.
  revert cur. induction s as [|c r IH]; intros cur; simpl; [reflexivity|].
  destruct (trimEnd r) eqn:E.
  - destruct (is_space c) eqn:Ec; simpl.
    + rewrite <- IH. simpl. now rewrite app_nil_r.
    + rewrite Ec. now rewrite <- IH.
  - simpl. destruct (is_space c); now rewrite <- !IH.
Qed.

Lemma tokens_trimStart s : ws_tokens (trimStart s) = ws_tokens s.
Proof.
  unfold ws_tokens. induction s as [|c r IH]; simpl; [reflexivity|].
  destruct (is_space c) eqn:E; [exact IH|].
  simpl. now rewrite E.
Qed.

(** Trimming changes no token. *)
Lemma tokens_trim s : ws_tokens (trim s) = ws_tokens s.
Proof.
  unfold trim, ws_tokens. rewrite tokens_go_trimEnd. apply tokens_trimStart.
Qed.

End Strings.

(** ** Validation *)

#[local] Arguments trim : simpl never.
#[local] Arguments split_ws : simpl never.
#[local] Arguments ws_tokens : simpl never.
#[local] Arguments toISOString : simpl never.
#[local] Arguments Z.ltb : simpl never.
#[local] Arguments Z.leb : simpl never.
#[local] Arguments Z.sub : simpl never.
#[local] Arguments Z.add : simpl never.
#[local] Arguments Z.mul : simpl never.

(** Unfolding of the monad operations in a handler body. *)
Ltac run :=
  unfold mbind, mret, M_bind, M_ret, bind, ret, throw, try_catch,
    console_log, await_create, destructure, get_prop, get_first,
    call_trim, call_split in *;
  simpl in *.

Section Validation.

Implicit Types (s : jsstring) (v text : jsval) (w : world).

Lemma validate_falsy v w :
  truthy v = false ->
  validate v w = (Return (inl (json 400 (ErrorJson MSG_NO_TEXT))), w).
Proof. intros H. unfold validate. run. rewrite H. reflexivity. Qed.

Lemma validate_non_string v w :
  truthy v = true -> is_string v = false ->
  validate v w = (Throw TypeError, w).
Proof.
  intros H1 H2. unfold validate. run. rewrite H1.
  destruct v; try discriminate; reflexivity.
Qed.

Lemma validate_string s w :
  validate (VStr s) w =
  (Return
     (if bool_decide (trim s = []) then inl (json 400 (ErrorJson MSG_NO_TEXT))
      else if 1000 <? array_length (split_ws (trim s))
           then inl (json 400 (ErrorJson MSG_TOO_LONG))
           else inr (array_length (split_ws (trim s)))), w).
Proof.
  unfold validate. run. destruct s as [|c r].
  - reflexivity.
  - run. repeat case_bool_decide; repeat case_match; done.
Qed.

End Validation.

(** ** The stages of the handler of [server.js] *)

Section ServerJsStages.

Context (openai : upstream) (now : Z) (req : request) (w : world).

Let text := prop (body req) "text".
Let sent := completion_request ServerJs.SYSTEM_PROMPT text.

Lemma validate_world v w0 o w1 : validate v w0 = (o, w1) -> w1 = w0.
Proof.
  destruct (truthy v) eqn:Ht.
  - destruct v; try (rewrite validate_non_string by done; congruence).
    rewrite validate_string. congruence.
  - rewrite validate_falsy by done. congruence.
Qed.

Lemma humanize_invalid r :
  nullish (body req) = false ->
  validate text w = (Return (inl r), w) ->
  ServerJs.humanize openai now req w = (r, w).
Proof.
  intros Hb Hv. unfold ServerJs.humanize. run. rewrite Hb. run.
  fold text. rewrite Hv. reflexivity.
Qed.

Lemma humanize_throws e :
  nullish (body req) = false ->
  validate text w = (Throw e, w) ->
  ServerJs.humanize openai now req w = on_error e w.
Proof.
  intros Hb Hv. unfold ServerJs.humanize. run. rewrite Hb. run.
  fold text. rewrite Hv. reflexivity.
Qed.

Lemma humanize_upstream_rejects wordCount e :
  nullish (body req) = false ->
  validate text w = (Return (inr wordCount), w) ->
  openai (length (upstream_log w)) sent = Rejected e ->
  ServerJs.humanize openai now req w =
  on_error e
    {| quota := quota w; upstream_log := upstream_log w ++ [sent];
       console := console w ++ [LogProcessing wordCount] |}.
Proof.
  intros Hb Hv Hup. unfold ServerJs.humanize. run. rewrite Hb. run.
  fold text. rewrite Hv. fold sent. rewrite Hup. reflexivity.
Qed.

Lemma humanize_upstream_resolves wordCount completion :
  nullish (body req) = false ->
  validate text w = (Return (inr wordCount), w) ->
  openai (length (upstream_log w)) sent = Resolved completion ->
  let w' := {| quota := quota w; upstream_log := upstream_log w ++ [sent];
               console := console w ++ [LogProcessing wordCount; LogSuccess] |}
  in
  ServerJs.humanize openai now req w =
  match ServerJs.humanized_text completion with
  | VStr t =>
      (json 200
         (HumanizeJson (VStr (trim t)) wordCount
            (if truthy (VStr t) then array_length (split_ws (trim t)) else 0)),
       w')
  | _ => on_error TypeError w'
  end.
Proof.
  intros Hb Hv Hup. unfold ServerJs.humanize. run. rewrite Hb. run.
  fold text. rewrite Hv. fold sent. rewrite Hup. simpl.
  rewrite <- app_assoc. simpl.
  destruct (ServerJs.humanized_text completion) as [| | | |t| |];
    try reflexivity.
  destruct t; reflexivity.
Qed.

End ServerJsStages.

(** ** The stages of the handler of [part_000] *)

Section Part000Stages.

Context (openai : upstream) (now : Z) (req : request) (w : world).

Let text := prop (body req) "text".
Let sent := completion_request Part000.SYSTEM_PROMPT text.

Lemma old_humanize_invalid r :
  nullish (body req) = false ->
  validate text w = (Return (inl r), w) ->
  Part000.humanize openai now req w = (r, w).
Proof.
  intros Hb Hv. unfold Part000.humanize. run. rewrite Hb. run.
  fold text. rewrite Hv. reflexivity.
Qed.

Lemma old_humanize_upstream_rejects wordCount e :
  nullish (body req) = false ->
  validate text w = (Return (inr wordCount), w) ->
  openai (length (upstream_log w)) sent = Rejected e ->
  Part000.humanize openai now req w =
  on_error e
    {| quota := quota w; upstream_log := upstream_log w ++ [sent];
       console := console w ++ [LogProcessing wordCount] |}.
Proof.
  intros Hb Hv Hup. unfold Part000.humanize. run. rewrite Hb. run.
  fold text. rewrite Hv. fold sent. rewrite Hup. reflexivity.
Qed.

(** Without content in the reply, one of the property accesses or the
    call of [split] throws a [TypeError]. *)
Lemma old_humanize_no_content wordCount completion :
  nullish (body req) = false ->
  validate text w = (Return (inr wordCount), w) ->
  openai (length (upstream_log w)) sent = Resolved completion ->
  no_content completion ->
  fst (Part000.humanize openai now req w) = json 500 (ErrorJson MSG_FAILED).
Proof.
  intros Hb Hv Hup Hno. unfold Part000.humanize. run. rewrite Hb. run.
  fold text. rewrite Hv. fold sent. rewrite Hup. simpl.
  unfold no_content, opt_prop, opt_first in Hno.
  destruct (nullish completion) eqn:E1; simpl; [reflexivity|].
  destruct (nullish (prop completion "choices")) eqn:E2; simpl;
    [reflexivity|].
  destruct (nullish (first (prop completion "choices"))) eqn:E3; simpl;
    [reflexivity|].
  destruct (nullish (prop (first (prop completion "choices")) "message"))
    eqn:E4; simpl; [reflexivity|].
  destruct (prop (prop (first (prop completion "choices")) "message")
              "content"); try discriminate; reflexivity.
Qed.

Lemma old_humanize_content wordCount completion t :
  nullish (body req) = false ->
  validate text w = (Return (inr wordCount), w) ->
  openai (length (upstream_log w)) sent = Resolved completion ->
  completion = Sample.completion_with (VStr t) ->
  fst (Part000.humanize openai now req w) =
  json 200 (HumanizeJson (VStr t) wordCount (array_length (split_ws t))).
Proof.
  intros Hb Hv Hup ->. unfold Part000.humanize. run. rewrite Hb. run.
  fold text. rewrite Hv. fold sent. rewrite Hup. reflexivity.
Qed.

End Part000Stages.

(** ** The [catch] block *)

Lemma on_error_status e w : status (fst (on_error e w)) = 500.
Proof. unfold on_error. repeat case_match; reflexivity. Qed.

Lemma on_error_world e w :
  quota (snd (on_error e w)) = quota w
  /\ upstream_log (snd (on_error e w)) = upstream_log w.
Proof. unfold on_error. repeat case_match; split; reflexivity. Qed.

Lemma on_error_type_error w :
  fst (on_error TypeError w) = json 500 (ErrorJson MSG_FAILED).
Proof. reflexivity. Qed.



(** ** Claims on validation and on the shape of the response *)

Lemma acceptable_validate s w :
  validate (VStr s) w =
  (Return
     (if acceptable s then inr (token_count (trim s))
      else inl (json 400
                  (ErrorJson (if bool_decide (trim s = []) then MSG_NO_TEXT
                              else MSG_TOO_LONG)))), w).
Proof.
  rewrite validate_string. unfold acceptable.
  case_bool_decide as Ht; simpl; [reflexivity|].
  rewrite split_trim_count by exact Ht.
  destruct (Z.ltb_spec 1000 (token_count (trim s)));
    destruct (Z.leb_spec (token_count (trim s)) 1000); try lia; reflexivity.
Qed.

Lemma validate_submitted text w :
  truthy text = false \/ is_string text = true ->
  validate text w =
  (Return
     (if acceptable (submitted_text text)
      then inr (token_count (trim (submitted_text text)))
      else inl (json 400
                  (ErrorJson
                     (if bool_decide (trim (submitted_text text) = [])
                      then MSG_NO_TEXT else MSG_TOO_LONG)))), w).
Proof.
  intros [H|H].
  - destruct text; try (rewrite validate_falsy by exact H; reflexivity).
    apply acceptable_validate.
  - destruct text; try discriminate. apply acceptable_validate.
Qed.

(** C1. For a POST /api/humanize request whose [text] is absent (or
    otherwise falsy) or a string: validation succeeds exactly when the
    trimmed text is non-empty and has at most 1000 whitespace-delimited
    tokens, and then the upstream service is called once with the text;
    otherwise the handler answers 400 with 'Please provide text to
    humanize' (trimmed text empty) or 'Text exceeds 1000 words limit'
    (more than 1000 tokens), and no upstream call is made. *)
Theorem humanize_validates openai now req w :
  nullish (body req) = false ->
  truthy (prop (body req) "text") = false
  \/ is_string (prop (body req) "text") = true ->
  let text := prop (body req) "text" in
  let s := submitted_text text in
  let out := ServerJs.humanize openai now req w in
  (acceptable s = true ->
     validate text w = (Return (inr (token_count (trim s))), w)
     /\ upstream_log (snd out)
        = upstream_log w ++ [completion_request ServerJs.SYSTEM_PROMPT text]
     /\ status (fst out) <> 400)
  /\ (acceptable s = false ->
     validate text w = (Return (inl (fst out)), w)
     /\ fst out
        = json 400 (ErrorJson (if bool_decide (trim s = []) then MSG_NO_TEXT
                               else MSG_TOO_LONG))
     /\ upstream_log (snd out) = upstream_log w).
Proof.
  intros Hb Ht text s out.
  pose proof (validate_submitted text w Ht) as Hv. fold s in Hv.
  split; intros Hacc; rewrite Hacc in Hv.
  - split; [exact Hv|]. subst out.
    destruct (openai (length (upstream_log w))
                (completion_request ServerJs.SYSTEM_PROMPT text)) as [c|e] eqn:Hup.
    + rewrite (humanize_upstream_resolves _ _ _ _ _ _ Hb Hv Hup).
      destruct (ServerJs.humanized_text c); simpl; split; try done;
        destruct (on_error_world TypeError
                    {| quota := quota w;
                       upstream_log := upstream_log w ++
                         [completion_request ServerJs.SYSTEM_PROMPT text];
                       console := console w ++
                         [LogProcessing (token_count (trim s)); LogSuccess] |})
          as [_ ->]; reflexivity.
    + rewrite (humanize_upstream_rejects _ _ _ _ _ _ Hb Hv Hup).
      split; [apply on_error_world|]. rewrite on_error_status. done.
  - subst out. rewrite (humanize_invalid _ _ _ _ _ Hb Hv). simpl.
    split; [exact Hv|]. split; reflexivity.
Qed.

Lemma humanize_validates_witness :
  upstream_log
    (snd (ServerJs.humanize (Sample.replying VNull) 0
            (Sample.post (VStr Sample.fox)) Sample.w0))
  = [completion_request ServerJs.SYSTEM_PROMPT (VStr Sample.fox)].
Proof.
  destruct (humanize_validates (Sample.replying VNull) 0
              (Sample.post (VStr Sample.fox)) Sample.w0) as [H _].
  - reflexivity.
  - right. reflexivity.
  - destruct H as (_ & H & _); [reflexivity|exact H].
Defined.

Lemma humanize_no_body openai now req w :
  nullish (body req) = true ->
  ServerJs.humanize openai now req w = on_error TypeError w.
Proof. intros Hb. unfold ServerJs.humanize. run. now rewrite Hb. Qed.

(** C5. In every successful (200) response of POST /api/humanize, the
    submitted text is a string and [originalWordCount] is the number of
    whitespace-delimited tokens of the trimmed submitted text. *)
Theorem original_word_count openai now req w res w' :
  ServerJs.humanize openai now req w = (res, w') ->
  status res = 200 ->
  exists s humanizedText humanizedWordCount,
    prop (body req) "text" = VStr s
    /\ content res
       = HumanizeJson humanizedText (token_count (trim s)) humanizedWordCount.
Proof.
  intros Hrun Hok.
  assert (Hres : res = fst (ServerJs.humanize openai now req w))
    by now rewrite Hrun.
  clear Hrun. subst res.
  destruct (nullish (body req)) eqn:Hb.
  { rewrite humanize_no_body in Hok by exact Hb.
    now rewrite on_error_status in Hok. }
  destruct (truthy (prop (body req) "text")) eqn:Ht.
  - destruct (prop (body req) "text") as [| | | |s| |] eqn:Htext;
      try (rewrite (humanize_throws _ _ _ _ TypeError Hb) in Hok
             by (rewrite Htext; now apply validate_non_string);
           now rewrite on_error_status in Hok).
    pose proof (acceptable_validate s w) as Hv. rewrite <- Htext in Hv at 1.
    destruct (acceptable s).
    + destruct (openai (length (upstream_log w))
                  (completion_request ServerJs.SYSTEM_PROMPT
                     (prop (body req) "text"))) as [c|e] eqn:Hup.
      * rewrite (humanize_upstream_resolves _ _ _ _ _ _ Hb Hv Hup) in Hok |- *.
        destruct (ServerJs.humanized_text c);
          try (now rewrite on_error_status in Hok).
        simpl. eauto.
      * rewrite (humanize_upstream_rejects _ _ _ _ _ _ Hb Hv Hup) in Hok.
        now rewrite on_error_status in Hok.
    + rewrite (humanize_invalid _ _ _ _ _ Hb Hv) in Hok. discriminate.
  - rewrite (humanize_invalid _ _ _ _ _ Hb (validate_falsy _ w Ht)) in Hok.
    discriminate.
Qed.

Lemma original_word_count_witness :
  exists s humanizedText humanizedWordCount,
    prop (body (Sample.post (VStr Sample.fox))) "text" = VStr s
    /\ HumanizeJson (VStr (lit "A fast fox.")) 4 3
       = HumanizeJson humanizedText (token_count (trim s)) humanizedWordCount.
Proof.
  apply (original_word_count
           (Sample.replying (VStr (lit " A fast fox. "))) 0
           (Sample.post (VStr Sample.fox)) Sample.w0
           (json 200 (HumanizeJson (VStr (lit "A fast fox.")) 4 3))
           {| quota := ∅;
              upstream_log :=
                [completion_request ServerJs.SYSTEM_PROMPT (VStr Sample.fox)];
              console := [LogProcessing 4; LogSuccess] |}).
  - reflexivity.
  - reflexivity.
Defined.

(** C10. A POST /api/humanize request whose [text] is truthy but not a
    string gets 500 with the generic message, not 400: the call of [trim]
    throws and the [catch] block answers; no upstream call is made. *)
Theorem non_string_text_fails openai now req w :
  nullish (body req) = false ->
  truthy (prop (body req) "text") = true ->
  is_string (prop (body req) "text") = false ->
  let out := ServerJs.humanize openai now req w in
  validate (prop (body req) "text") w = (Throw TypeError, w)
  /\ fst out = json 500 (ErrorJson MSG_FAILED)
  /\ upstream_log (snd out) = upstream_log w
  /\ console (snd out) = console w ++ [LogError TypeError].
Proof.
  intros Hb Ht Hs out.
  pose proof (validate_non_string _ w Ht Hs) as Hv.
  subst out. rewrite (humanize_throws _ _ _ _ _ Hb Hv).
  split; [exact Hv|]. repeat split; reflexivity.
Qed.

Lemma non_string_text_fails_witness :
  fst (ServerJs.humanize (Sample.replying VNull) 0
         (Sample.post (VNum (S754_finite false 5 0))) Sample.w0)
  = json 500 (ErrorJson MSG_FAILED).
Proof.
  refine (proj1 (proj2 (non_string_text_fails (Sample.replying VNull) 0
              (Sample.post (VNum (S754_finite false 5 0))) Sample.w0
              _ _ _))); reflexivity.
Defined.

(** The word count of the rewritten text, case by case: 0 for an empty
    reply, the token count of the trimmed reply when that is not empty, and
    1 for a reply of white space only, where [split] of the empty string
    gives one (empty) element. *)
Lemma humanized_word_count openai now req w wordCount t :
  nullish (body req) = false ->
  validate (prop (body req) "text") w = (Return (inr wordCount), w) ->
  openai (length (upstream_log w))
    (completion_request ServerJs.SYSTEM_PROMPT (prop (body req) "text"))
  = Resolved (Sample.completion_with (VStr t)) ->
  fst (ServerJs.humanize openai now req w)
  = json 200
      (HumanizeJson (VStr (trim t)) wordCount
         (if bool_decide (t = []) then 0
          else if bool_decide (trim t = []) then 1
          else token_count (trim t))).
Proof.
  intros Hb Hv Hup.
  rewrite (humanize_upstream_resolves _ _ _ _ _ _ Hb Hv Hup).
  destruct t as [|c r]; [reflexivity|].
  change (ServerJs.humanized_text (Sample.completion_with (VStr (c :: r))))
    with (VStr (c :: r)).
  simpl. case_bool_decide as Htrim.
  - now rewrite Htrim.
  - now rewrite split_trim_count.
Qed.

(** C7. A reply of white space only: the response carries the empty
    string as [humanizedText] and counts one word. *)
Theorem blank_reply_counts_one_word :
  fst (ServerJs.humanize (Sample.replying (VStr (lit "   "))) 0
         (Sample.post (VStr Sample.fox)) Sample.w0)
  = json 200 (HumanizeJson (VStr []) 4 1).
Proof. reflexivity. Qed.

(** ** Claims on the upstream call *)



Lemma no_content_humanized_text completion :
  no_content completion -> ServerJs.humanized_text completion = VStr [].
Proof.
  unfold no_content, ServerJs.humanized_text, or_else.
  destruct (opt_prop _ "content"); try discriminate; reflexivity.
Qed.

(** C6, as the code has it. When the upstream call succeeds but the reply
    carries no message content, the handler of [server.js] answers 200 with
    the empty string and a word count of 0; the handler of [part_000]
    answers 500 with the generic message. *)
Theorem no_content_reply openai now req w s completion :
  nullish (body req) = false ->
  prop (body req) "text" = VStr s ->
  acceptable s = true ->
  no_content completion ->
  (openai (length (upstream_log w))
     (completion_request ServerJs.SYSTEM_PROMPT (VStr s))
   = Resolved completion ->
   fst (ServerJs.humanize openai now req w)
   = json 200 (HumanizeJson (VStr []) (token_count (trim s)) 0))
  /\ (openai (length (upstream_log w))
        (completion_request Part000.SYSTEM_PROMPT (VStr s))
      = Resolved completion ->
      fst (Part000.humanize openai now req w)
      = json 500 (ErrorJson MSG_FAILED)).
Proof.
  intros Hb Htext Hacc Hno.
  pose proof (acceptable_validate s w) as Hv.
  rewrite Hacc, <- Htext in Hv.
  split; intros Hup; rewrite <- Htext in Hup.
  - rewrite (humanize_upstream_resolves _ _ _ _ _ _ Hb Hv Hup).
    now rewrite no_content_humanized_text.
  - exact (old_humanize_no_content _ _ _ _ _ _ Hb Hv Hup Hno).
Qed.

Lemma no_content_reply_witness :
  fst (ServerJs.humanize (Sample.replying VNull) 0
         (Sample.post (VStr Sample.fox)) Sample.w0)
  = json 200 (HumanizeJson (VStr []) (token_count (trim Sample.fox)) 0)
  /\ fst (Part000.humanize (Sample.replying VNull) 0
            (Sample.post (VStr Sample.fox)) Sample.w0)
     = json 500 (ErrorJson MSG_FAILED).
Proof.
  destruct (no_content_reply (Sample.replying VNull) 0
              (Sample.post (VStr Sample.fox)) Sample.w0 Sample.fox
              (Sample.completion_with VNull)) as [H1 H2];
    try reflexivity.
  split; [apply H1|apply H2]; reflexivity.
Defined.

(** C6, as stated, fails: the handler of [part_000] does not answer a
    reply without content with 200 and the empty string. *)
Lemma no_content_not_in_both_versions :
  ~ (empty_on_no_content ServerJs.humanize ServerJs.SYSTEM_PROMPT
     /\ empty_on_no_content Part000.humanize Part000.SYSTEM_PROMPT).
Proof.
  intros [_ H].
  specialize (H (Sample.replying VNull) 0 (Sample.post (VStr Sample.fox))
                Sample.w0 Sample.fox (Sample.completion_with VNull)
                eq_refl eq_refl eq_refl eq_refl eq_refl).
  discriminate H.
Qed.

(** ** The quota tracker *)

Section Quota.

Import RateLimiterMemory.

Context (o : options).

Implicit Types (store : gmap string quota_record) (k : string)
  (r : quota_record).

Lemma current_record_active now k store r :
  store !! k = Some r -> window_active o now r = true ->
  current_record o now k store = r.
Proof. intros H1 H2. unfold current_record. now rewrite H1, H2. Qed.

Lemma current_record_fresh now k store :
  (forall r, store !! k = Some r -> window_active o now r = false) ->
  current_record o now k store = {| consumed := 0; window_start := now |}.
Proof.
  intros H. unfold current_record. destruct (store !! k) as [r|]; [|done].
  now rewrite (H r).
Qed.

(** A call admits exactly when the consumed-count of the current window
    is below the capacity; it then counts the request, and counts nothing
    when it rejects. *)
Lemma consume_spec now k store :
  let r := current_record o now k store in
  consume o now k store =
  if points o <=? consumed r then (false, <[k := r]> store)
  else (true, <[k := {| consumed := consumed r + 1;
                        window_start := window_start r |}]> store).
Proof. reflexivity. Qed.

Lemma consume_other now k k' store :
  k <> k' -> snd (consume o now k store) !! k' = store !! k'.
Proof.
  intros Hne. unfold consume.
  destruct (points o <=? _); simpl; now rewrite lookup_insert_ne.
Qed.

Lemma consume_same now k store :
  snd (consume o now k store) !! k
  = Some (if fst (consume o now k store)
          then {| consumed := consumed (current_record o now k store) + 1;
                  window_start :=
                    window_start (current_record o now k store) |}
          else current_record o now k store).
Proof.
  unfold consume.
  destruct (points o <=? _); simpl; now rewrite lookup_insert_eq.
Qed.

Lemma consume_admitted now k store :
  fst (consume o now k store) = true
  <-> consumed (current_record o now k store) < points o.
Proof.
  unfold consume.
  destruct (Z.leb_spec (points o) (consumed (current_record o now k store)));
    simpl; split; intros; try done; lia.
Qed.

End Quota.

(** ** The application behind the rate limiting middleware *)

Section Limited.

Import RateLimiterMemory.

Context (parsed : option Z) (openai : upstream).

Let o := ServerJs.rateLimiter parsed.

(** The routes registered after the middleware. *)
Let routes : handler :=
  dispatch [ Route POST ApiHumanize (ServerJs.humanize openai);
             Route GET ApiHealth health ].

(** The handler changes no quota record and answers 200, 400 or 500. *)
Lemma humanize_outcome now req w :
  quota (snd (ServerJs.humanize openai now req w)) = quota w
  /\ (status (fst (ServerJs.humanize openai now req w)) = 200
      \/ status (fst (ServerJs.humanize openai now req w)) = 400
      \/ status (fst (ServerJs.humanize openai now req w)) = 500).
Proof.
  assert (Herr : forall e w1, quota w1 = quota w ->
            quota (snd (on_error e w1)) = quota w
            /\ (status (fst (on_error e w1)) = 200
                \/ status (fst (on_error e w1)) = 400
                \/ status (fst (on_error e w1)) = 500)).
  { intros e w1 Hq. rewrite on_error_status.
    destruct (on_error_world e w1) as [-> _]. auto. }
  destruct (nullish (body req)) eqn:Hb.
  { rewrite humanize_no_body by exact Hb. now apply Herr. }
  destruct (validate (prop (body req) "text") w) as [[[r|wc]|e] w1] eqn:Hv;
    pose proof (validate_world _ _ _ _ Hv) as ->.
  - rewrite (humanize_invalid _ _ _ _ _ Hb Hv). simpl. split; [done|].
    destruct (truthy (prop (body req) "text")) eqn:Ht.
    + destruct (prop (body req) "text") as [| | | |s| |];
        try (rewrite validate_non_string in Hv by done; discriminate).
      rewrite validate_string in Hv. repeat case_match; simplify_eq; auto.
    + rewrite validate_falsy in Hv by done. simplify_eq. auto.
  - destruct (openai (length (upstream_log w))
                (completion_request ServerJs.SYSTEM_PROMPT
                   (prop (body req) "text"))) as [c|e] eqn:Hup.
    + rewrite (humanize_upstream_resolves _ _ _ _ _ _ Hb Hv Hup).
      destruct (ServerJs.humanized_text c); try (now apply Herr).
      simpl. auto.
    + rewrite (humanize_upstream_rejects _ _ _ _ _ _ Hb Hv Hup).
      now apply Herr.
  - rewrite (humanize_throws _ _ _ _ _ Hb Hv). now apply Herr.
Qed.

Lemma routes_outcome now req w :
  quota (snd (routes now req w)) = quota w
  /\ status (fst (routes now req w)) <> 429.
Proof.
  unfold routes. simpl.
  destruct (method_eqb (method req) POST && endpoint_eqb (path req) ApiHumanize).
  { destruct (humanize_outcome now req w) as [Hq Hs]. split; [exact Hq|]. lia. }
  destruct (method_eqb (method req) GET && endpoint_eqb (path req) ApiHealth);
    simpl; split; done.
Qed.

(** Every request but [GET /] goes through the quota tracker first. *)
Lemma app_limited now req w :
  behind_limiter req = true ->
  ServerJs.app parsed openai now req w =
  if fst (consume o now (ip req) (quota w))
  then routes now req (with_quota (snd (consume o now (ip req) (quota w))) w)
  else (json 429 (ErrorJson ServerJs.MSG_LIMIT),
        with_quota (snd (consume o now (ip req) (quota w))) w).
Proof.
  unfold behind_limiter. intros Hb%negb_true_iff.
  unfold ServerJs.app, ServerJs.layers. simpl. rewrite Hb.
  unfold ServerJs.rate_limit. fold o.
  destruct (consume o now (ip req) (quota w)) as [[|] q]; reflexivity.
Qed.

Lemma app_quota now req w :
  behind_limiter req = true ->
  quota (snd (ServerJs.app parsed openai now req w))
  = snd (consume o now (ip req) (quota w)).
Proof.
  intros Hb. rewrite app_limited by exact Hb.
  destruct (fst (consume o now (ip req) (quota w))); [|reflexivity].
  now destruct (routes_outcome now req
                  (with_quota (snd (consume o now (ip req) (quota w))) w))
    as [-> _].
Qed.

Lemma app_status now req w :
  behind_limiter req = true ->
  status (fst (ServerJs.app parsed openai now req w)) = 429
  <-> fst (consume o now (ip req) (quota w)) = false.
Proof.
  intros Hb. rewrite app_limited by exact Hb.
  destruct (fst (consume o now (ip req) (quota w))); [|done].
  destruct (routes_outcome now req
              (with_quota (snd (consume o now (ip req) (quota w))) w))
    as [_ H].
  split; [intros; contradiction|discriminate].
Qed.

Lemma exhausted_rejected now k store :
  exhausted o now k store -> fst (consume o now k store) = false.
Proof.
  intros (r & Hr & Hact & Hfull).
  apply not_true_is_false. rewrite consume_admitted.
  rewrite (current_record_active _ _ _ _ _ Hr Hact). lia.
Qed.

End Limited.

(** ** The timestamp of the health check *)

Section Timestamp.

Lemma digit_value n :
  is_digit (digit n) = true
  /\ Z.of_N (N_of_ascii (digit n)) - 48 = n mod 10.
Proof.
  assert (0 <= n mod 10 < 10) by (apply Z.mod_pos_bound; lia).
  unfold is_digit, digit. rewrite N_ascii_embedding by lia.
  split; [|lia].
  apply andb_true_intro; split; apply N.leb_le; lia.
Qed.

Lemma digit_not_sign n :
  Ascii.eqb (digit n) "+" = false /\ Ascii.eqb (digit n) "-" = false.
Proof.
  destruct (digit_value n) as [_ Hv].
  assert (0 <= n mod 10 < 10) by (apply Z.mod_pos_bound; lia).
  split; apply Ascii.eqb_neq; intros Heq; rewrite Heq in Hv;
    simpl in Hv; lia.
Qed.

Lemma append_cons a (r rest : string) :
  String a r +:+ rest = String a (r +:+ rest).
Proof. reflexivity. Qed.

Lemma append_empty (rest : string) : EmptyString +:+ rest = rest.
Proof. reflexivity. Qed.

Lemma read_digits_pad n acc v rest :
  read_digits n acc (pad n v +:+ rest)
  = Some (acc * 10 ^ Z.of_nat n + v mod 10 ^ Z.of_nat n, rest).
Proof.
  revert acc. induction n as [|n IH]; intros acc.
  - simpl. rewrite Z.mod_1_r. do 2 f_equal. lia.
  - cbn [pad read_digits]. rewrite append_cons.
    destruct (digit_value (v / 10 ^ Z.of_nat n)) as [-> Hd].
    replace (10 * acc + Z.of_N (N_of_ascii (digit (v / 10 ^ Z.of_nat n))) - 48)
      with (10 * acc + (v / 10 ^ Z.of_nat n) mod 10) by lia.
    rewrite IH. do 2 f_equal.
    rewrite Nat2Z.inj_succ, Z.pow_succ_r by lia.
    rewrite (Z.mul_comm 10 (10 ^ Z.of_nat n)), Z.rem_mul_r by lia. ring.
Qed.

Lemma read_field_pad n lo hi v rest :
  lo <= v <= hi -> 0 <= v < 10 ^ Z.of_nat n ->
  read_field n lo hi (pad n v +:+ rest) = Some rest.
Proof.
  intros Hr Hv. unfold read_field. rewrite read_digits_pad.
  rewrite Z.mod_small by exact Hv. rewrite Z.mul_0_l, Z.add_0_l.
  destruct (Z.leb_spec lo v); destruct (Z.leb_spec v hi); try lia.
  reflexivity.
Qed.

Lemma read_year_string y rest :
  -999999 <= y <= 999999 ->
  read_year (year_string y +:+ rest) = Some rest.
Proof.
  intros Hy. unfold year_string.
  destruct (Z.leb_spec 0 y); destruct (Z.leb_spec y 9999);
    cbn [andb]; try lia.
  - transitivity (read_field 4 0 9999 (pad 4 y +:+ rest)).
    + change (pad 4 y) with (String (digit (y / 10 ^ Z.of_nat 3)) (pad 3 y)).
      rewrite append_cons. unfold read_year.
      now destruct (digit_not_sign (y / 10 ^ Z.of_nat 3)) as [-> ->].
    + apply read_field_pad; [lia|]. change (10 ^ Z.of_nat 4) with 10000. lia.
  - destruct (Z.ltb_spec y 0); [lia|].
    rewrite !append_cons, append_empty.
    cbn [read_year Ascii.eqb Bool.eqb orb].
    apply read_field_pad; [lia|]. change (10 ^ Z.of_nat 6) with 1000000. lia.
  - destruct (Z.ltb_spec y 0); [|lia].
    rewrite !append_cons, append_empty.
    cbn [read_year Ascii.eqb Bool.eqb orb].
    apply read_field_pad; [lia|]. change (10 ^ Z.of_nat 6) with 1000000. lia.
Qed.

Lemma year_of_era_bound doe :
  0 <= doe < 146097 -> 0 <= year_of_era doe <= 399.
Proof.
  unfold year_of_era. intros. Z.to_euclidean_division_equations; lia.
Qed.

Lemma day_of_year_bound doe :
  0 <= doe < 146097 -> 0 <= day_of_year doe <= 365.
Proof.
  unfold day_of_year, year_of_era. intros.
  Z.to_euclidean_division_equations; lia.
Qed.

Lemma month_index_bound doe :
  0 <= doe < 146097 -> 0 <= month_index doe <= 11.
Proof.
  intros H. pose proof (day_of_year_bound doe H). unfold month_index.
  Z.to_euclidean_division_equations; lia.
Qed.

Lemma day_of_era_bound d : 0 <= day_of_era d < 146097.
Proof. unfold day_of_era. apply Z.mod_pos_bound. lia. Qed.

Lemma MonthFromDay_bound d : 1 <= MonthFromDay d <= 12.
Proof.
  unfold MonthFromDay.
  pose proof (month_index_bound _ (day_of_era_bound d)).
  destruct (Z.ltb_spec (month_index (day_of_era d)) 10); lia.
Qed.

Lemma DateFromDay_bound d : 1 <= DateFromDay d <= 31.
Proof.
  unfold DateFromDay.
  pose proof (day_of_year_bound _ (day_of_era_bound d)) as H.
  unfold month_index. generalize dependent (day_of_year (day_of_era d)).
  intros. Z.to_euclidean_division_equations; lia.
Qed.

Lemma YearFromDay_bound t :
  valid_time t -> -272000 <= YearFromDay (Day t) <= 276000.
Proof.
  unfold valid_time, YearFromDay, Day, msPerDay. intros H.
  pose proof (year_of_era_bound _ (day_of_era_bound (t / 86400000))).
  generalize dependent (year_of_era (day_of_era (t / 86400000))).
  intros. destruct (MonthFromDay (t / 86400000) <=? 2);
    Z.to_euclidean_division_equations; lia.
Qed.

(** [toISOString] writes an ISO-8601 date-time for every time value of a
    [Date]. *)
Lemma toISOString_iso8601 t : valid_time t -> is_iso8601 (toISOString t) = true.
Proof.
  intros Ht. unfold toISOString, is_iso8601.
  pose proof (YearFromDay_bound t Ht).
  pose proof (MonthFromDay_bound (Day t)).
  pose proof (DateFromDay_bound (Day t)).
  assert (0 <= HourFromTime t < 24) by (apply Z.mod_pos_bound; lia).
  assert (0 <= MinFromTime t < 60) by (apply Z.mod_pos_bound; lia).
  assert (0 <= SecFromTime t < 60) by (apply Z.mod_pos_bound; lia).
  assert (0 <= msFromTime t < 1000) by (apply Z.mod_pos_bound; lia).
  rewrite read_year_string by lia.
  repeat (rewrite ?append_cons, ?append_empty;
          cbn [mbind option_bind read_char Ascii.eqb Bool.eqb andb];
          rewrite ?read_field_pad
            by (try change (10 ^ Z.of_nat 2) with 100;
                try change (10 ^ Z.of_nat 3) with 1000; lia)).
  reflexivity.
Qed.

End Timestamp.

(** ** Claims on the quota *)

Section QuotaClaims.

Import RateLimiterMemory.

Context (parsed : option Z) (openai : upstream).

Let o := ServerJs.rateLimiter parsed.
Let N := points o.
Let app := ServerJs.app parsed openai.


Lemma responses_to_cons k req res log :
  responses_to k ((req, res) :: log)
  = if decide (ip req = k) then res :: responses_to k log
    else responses_to k log.
Proof.
  unfold responses_to. destruct (decide (ip req = k)) as [H|H].
  - now rewrite filter_cons_True.
  - now rewrite filter_cons_False.
Qed.


End QuotaClaims.



(** C3. With a positive capacity, the next request of a client whose
    window has fully elapsed (24 hours since its start) works on a fresh
    window with the counter at 0 and is admitted, whatever the counter of
    the elapsed window was; afterwards the client's record counts this one
    request in a window that starts now. *)
Theorem elapsed_window_admits parsed openai now req w r :
  let o := ServerJs.rateLimiter parsed in
  0 < RateLimiterMemory.points o ->
  behind_limiter req = true ->
  quota w !! ip req = Some r ->
  RateLimiterMemory.duration_ms o <= now - window_start r ->
  let out := ServerJs.app parsed openai now req w in
  RateLimiterMemory.current_record o now (ip req) (quota w)
  = {| consumed := 0; window_start := now |}
  /\ fst (RateLimiterMemory.consume o now (ip req) (quota w)) = true
  /\ status (fst out) <> 429
  /\ quota (snd out) !! ip req = Some {| consumed := 1; window_start := now |}.
Proof.
  intros o Hpos Hb Hr Hel out.
  assert (Hfresh : RateLimiterMemory.current_record o now (ip req) (quota w)
                   = {| consumed := 0; window_start := now |}).
  { apply current_record_fresh. intros r' Hr'.
    assert (r' = r) as -> by congruence.
    unfold RateLimiterMemory.window_active. apply Z.ltb_ge. exact Hel. }
  assert (Hadm : fst (RateLimiterMemory.consume o now (ip req) (quota w))
                 = true).
  { apply consume_admitted. rewrite Hfresh. exact Hpos. }
  split; [exact Hfresh|]. split; [exact Hadm|]. subst out. split.
  - intros H. apply (app_status parsed openai now req w Hb) in H.
    fold o in H. congruence.
  - rewrite (app_quota parsed openai now req w Hb). fold o.
    rewrite consume_same, Hadm, Hfresh. reflexivity.
Qed.

Lemma elapsed_window_admits_witness :
  status (fst (ServerJs.app None (Sample.replying VNull) 86400000
                 (Sample.post (VStr Sample.fox)) Sample.spent)) <> 429.
Proof.
  refine (proj1 (proj2 (proj2
    (elapsed_window_admits None (Sample.replying VNull) 86400000
       (Sample.post (VStr Sample.fox)) Sample.spent
       {| consumed := 1000; window_start := 0 |} _ _ _ _)))).
  - reflexivity.
  - reflexivity.
  - reflexivity.
  - discriminate.
Defined.

(** Behind the parser, a POST /api/humanize request of a client whose
    quota is exhausted gets 429, whatever its body: the middleware answers
    before the handler runs, so nothing is validated, logged or sent
    upstream. *)
Lemma exhausted_gets_429 parsed openai now req w :
  method req = POST ->
  path req = ApiHumanize ->
  RateLimiterMemory.exhausted (ServerJs.rateLimiter parsed) now (ip req)
    (quota w) ->
  let out := ServerJs.app parsed openai now req w in
  fst out = json 429 (ErrorJson ServerJs.MSG_LIMIT)
  /\ upstream_log (snd out) = upstream_log w
  /\ console (snd out) = console w.
Proof.
  intros Hm Hp Hex out. subst out.
  rewrite app_limited by (unfold behind_limiter; now rewrite Hm).
  now rewrite (exhausted_rejected _ _ _ _ Hex).
Qed.

Lemma exhausted_gets_429_witness :
  fst (ServerJs.app None (Sample.replying VNull) 5
         (Sample.post (VStr Sample.fox)) Sample.spent)
  = json 429 (ErrorJson ServerJs.MSG_LIMIT).
Proof.
  refine (proj1 (exhausted_gets_429 None (Sample.replying VNull) 5
                   (Sample.post (VStr Sample.fox)) Sample.spent _ _ _)).
  - reflexivity.
  - reflexivity.
  - exists {| consumed := 1000; window_start := 0 |}.
    split; [reflexivity|]. split; [reflexivity|]. discriminate.
Defined.

(** C4, as the code has it. A POST /api/humanize request of a client
    whose quota is exhausted gets 429 whenever [express.json()] lets it
    through, whatever the parsed body holds (a valid text, an empty one,
    one over the word limit, none): the quota decision comes before the
    validation and before any upstream call, and nothing is logged.  A
    request whose entity the parser rejects is answered by the parser,
    with its status, before the quota is looked at. *)
Theorem exhausted_gets_429_behind_parser parsed openai now inc w :
  in_method inc = POST ->
  in_path inc = ApiHumanize ->
  RateLimiterMemory.exhausted (ServerJs.rateLimiter parsed) now (in_ip inc)
    (quota w) ->
  let out := ServerJs.server parsed openai now inc w in
  (forall parsed_body,
      entity inc = Accepts parsed_body ->
      fst out = json 429 (ErrorJson ServerJs.MSG_LIMIT)
      /\ upstream_log (snd out) = upstream_log w
      /\ console (snd out) = console w)
  /\ (forall code,
        entity inc = Rejects code -> out = (json code ErrorPage, w)).
Proof.
  intros Hm Hp Hex out. subst out.
  unfold ServerJs.server, cors, express_json. split.
  - intros b ->.
    now apply (exhausted_gets_429 parsed openai now (parsed_request inc b) w).
  - now intros code ->.
Qed.

Lemma exhausted_gets_429_behind_parser_witness :
  fst (ServerJs.server None (Sample.replying VNull) 5
         (Sample.arriving (Accepts (VObj [("text", VStr Sample.fox)])))
         Sample.spent)
  = json 429 (ErrorJson ServerJs.MSG_LIMIT).
Proof.
  refine (proj1 (proj1 (exhausted_gets_429_behind_parser None
                          (Sample.replying VNull) 5
                          (Sample.arriving
                             (Accepts (VObj [("text", VStr Sample.fox)])))
                          Sample.spent _ _ _)
                   (VObj [("text", VStr Sample.fox)]) _)).
  - reflexivity.
  - reflexivity.
  - exists {| consumed := 1000; window_start := 0 |}.
    split; [reflexivity|]. split; [reflexivity|]. discriminate.
  - reflexivity.
Defined.

(** C4, as stated, fails: [express.json()] is registered before the rate
    limiting middleware, so an exhausted client whose entity the parser
    rejects (here as too large, 413) gets the parser's answer, not 429. *)
Lemma parser_answers_before_quota :
  RateLimiterMemory.exhausted (ServerJs.rateLimiter None) 5 Sample.client
    (quota Sample.spent)
  /\ ServerJs.server None (Sample.replying VNull) 5
       (Sample.arriving (Rejects 413)) Sample.spent
     = (json 413 ErrorPage, Sample.spent).
Proof.
  split; [|reflexivity].
  exists {| consumed := 1000; window_start := 0 |}.
  split; [reflexivity|]. split; [reflexivity|]. simpl. lia.
Qed.

(** C9, as the code has it. GET /api/health passes the rate limiting
    middleware like every route registered after it: a request that the
    quota tracker admits gets 200 with status 'OK', service 'Humanivio
    API' and an ISO-8601 timestamp; a client whose quota is exhausted gets
    429. *)
Theorem health_check parsed openai now req w :
  method req = GET ->
  path req = ApiHealth ->
  valid_time now ->
  let o := ServerJs.rateLimiter parsed in
  let out := ServerJs.app parsed openai now req w in
  (fst (RateLimiterMemory.consume o now (ip req) (quota w)) = true ->
   exists timestamp,
     fst out = json 200 (HealthJson "OK" "Humanivio API" timestamp)
     /\ is_iso8601 timestamp = true)
  /\ (RateLimiterMemory.exhausted o now (ip req) (quota w) ->
      fst out = json 429 (ErrorJson ServerJs.MSG_LIMIT)).
Proof.
  intros Hm Hp Ht o out. subst out o.
  rewrite app_limited by (unfold behind_limiter; now rewrite Hm, Hp).
  split.
  - intros ->. simpl. rewrite Hm, Hp. simpl.
    eexists. split; [reflexivity|]. now apply toISOString_iso8601.
  - intros Hex. now rewrite (exhausted_rejected _ _ _ _ Hex).
Qed.

Lemma health_check_witness :
  exists timestamp,
    fst (ServerJs.app None (Sample.replying VNull) 1700000000000
           Sample.get_health Sample.w0)
    = json 200 (HealthJson "OK" "Humanivio API" timestamp)
    /\ is_iso8601 timestamp = true.
Proof.
  refine (proj1 (health_check None (Sample.replying VNull) 1700000000000
                   Sample.get_health Sample.w0 _ _ _) _).
  - reflexivity.
  - reflexivity.
  - unfold valid_time. lia.
  - reflexivity.
Defined.

(** C9, as stated, fails: once a client has used up its quota (here a
    capacity of 1, spent on a first health check), its next health check
    gets 429, not 200. *)
Lemma health_check_is_rate_limited :
  let app := ServerJs.app (Some 1) (Sample.replying VNull) in
  let w1 := snd (app 0 Sample.get_health Sample.w0) in
  RateLimiterMemory.exhausted (ServerJs.rateLimiter (Some 1)) 1
    Sample.client (quota w1)
  /\ fst (app 1 Sample.get_health w1)
     = json 429 (ErrorJson ServerJs.MSG_LIMIT).
Proof.
  split; [|reflexivity].
  exists {| consumed := 1; window_start := 0 |}.
  split; [reflexivity|]. split; [reflexivity|]. simpl. lia.
Qed.

(** ** The scenarios of the specification *)

Section Scenarios.

Let app := ServerJs.app None (Sample.replying (VStr (lit "A fast brown fox."))).

(** A text of [n] words. *)
Let words (n : nat) : jsstring := concat (repeat (lit "word ") n).

Example scenario_fox :
  fst (app 0 (Sample.post (VStr Sample.fox)) Sample.w0)
  = json 200 (HumanizeJson (VStr (lit "A fast brown fox.")) 4 4).
Proof. reflexivity. Qed.

Example scenario_empty_text :
  fst (app 0 (Sample.post (VStr [])) Sample.w0)
  = json 400 (ErrorJson "Please provide text to humanize").
Proof. reflexivity. Qed.

Example scenario_1000_words :
  status (fst (app 0 (Sample.post (VStr (words 1000))) Sample.w0)) = 200.
Proof. vm_compute. reflexivity. Qed.

Example scenario_1001_words :
  fst (app 0 (Sample.post (VStr (words 1001))) Sample.w0)
  = json 400 (ErrorJson "Text exceeds 1000 words limit").
Proof. vm_compute. reflexivity. Qed.

Example scenario_health :
  fst (app 1700000000000 Sample.get_health Sample.w0)
  = json 200 (HealthJson "OK" "Humanivio API" "2023-11-14T22:13:20.000Z").
Proof. vm_compute. reflexivity. Qed.

Example scenario_root_not_limited :
  fst (app 5 {| method := GET; path := Root; ip := Sample.client;
                body := VUndefined |} Sample.spent)
  = json 200 (TextBody ServerJs.BANNER).
Proof. reflexivity. Qed.

End Scenarios.

(** * Further properties of the code *)

(** ** The word count of line 59, [text.trim().split(/\s+/).length] *)

Section WordCount.

Implicit Types (s a b cur : jsstring) (c : code_unit).

Lemma split_go_length s :
  (forall cur, cur <> [] ->
     array_length (split_go false cur s)
     = array_length (tokens_go cur s) + (if ends_clean s then 0 else 1))
  /\ array_length (split_go true [] s)
     = array_length (tokens_go [] s)
       + (match s with [] => 1 | _ => if ends_clean s then 0 else 1 end).
Proof.
  unfold array_length.
  induction s as [|c r [IH1 IH2]].
  - split; [|reflexivity]. intros [|x cur] H; [done|]. simpl. lia.
  - assert (He : is_space c = true ->
                 (if ends_clean (c :: r) then 0 else 1)
                 = match r with [] => 1 | _ => if ends_clean r then 0 else 1 end).
    { intros Hc. destruct r; simpl; [now rewrite Hc|reflexivity]. }
    assert (Hn : is_space c = false ->
                 (if ends_clean (c :: r) then 0 else 1)
                 = (if ends_clean r then 0 else 1)).
    { intros Hc. destruct r; simpl; [now rewrite Hc|reflexivity]. }
    split.
    + intros cur Hcur. cbn [split_go tokens_go].
      destruct (is_space c) eqn:Ec.
      * rewrite (He eq_refl). destruct cur; [done|].
        cbn [emit app length]. rewrite !Nat2Z.inj_succ, IH2. simpl. lia.
      * rewrite (Hn eq_refl). now apply IH1.
    + cbn [split_go tokens_go]. destruct (is_space c) eqn:Ec.
      * rewrite (He eq_refl). exact IH2.
      * rewrite (Hn eq_refl). now apply IH1.
Qed.

End WordCount.

Section WordCountProperties.

Implicit Types (s a b cur pre post : jsstring) (c : code_unit).

(** The length of the array that [split(/\s+/)] returns for a text that
    is not empty: one element per token, one more for leading white space
    and one more for trailing white space. *)
Lemma split_length s :
  s <> [] ->
  array_length (split_ws s)
  = token_count s + edge (starts_clean s) + edge (ends_clean s).
Proof.
  destruct s as [|c r]; [done|]. intros _.
  destruct (split_go_length r) as [H1 H2].
  unfold split_ws, token_count, ws_tokens, edge.
  cbn [split_go tokens_go starts_clean].
  assert (He : (if ends_clean (c :: r) then 0 else 1)
               = if is_space c
                 then match r with [] => 1 | _ => if ends_clean r then 0 else 1 end
                 else if ends_clean r then 0 else 1).
  { destruct r; simpl; destruct (is_space c); reflexivity. }
  rewrite He. destruct (is_space c) eqn:Ec; cbn [negb emit app].
  - unfold array_length in *. cbn [length]. rewrite Nat2Z.inj_succ, H2. lia.
  - rewrite H1 by done. unfold array_length. lia.
Qed.

Lemma tokens_go_app cur a c b :
  is_space c = true ->
  tokens_go cur (a ++ c :: b) = tokens_go cur a ++ tokens_go [] b.
Proof.
  intros Hc. revert cur. induction a as [|x a IH]; intros cur; simpl.
  - now rewrite Hc.
  - destruct (is_space x); [|apply IH].
    now rewrite IH, app_assoc.
Qed.

Lemma token_count_app a c b :
  is_space c = true ->
  token_count (a ++ c :: b) = token_count a + token_count b.
Proof.
  intros Hc. unfold token_count, ws_tokens.
  rewrite tokens_go_app by exact Hc. rewrite length_app. lia.
Qed.

Lemma word_count_tokens s :
  forallb is_space s = false ->
  array_length (split_ws (trim s)) = token_count s.
Proof.
  intros H. rewrite split_trim_count.
  - unfold token_count. now rewrite tokens_trim.
  - intros Hnil. apply trim_nil_iff in Hnil. congruence.
Qed.

(** X1. The word count of the handler is additive: for two texts that
    are not blank, joined by a white space character, it is the sum of
    their word counts. *)
Theorem word_count_additive a c b :
  is_space c = true ->
  forallb is_space a = false ->
  forallb is_space b = false ->
  array_length (split_ws (trim (a ++ c :: b)))
  = array_length (split_ws (trim a)) + array_length (split_ws (trim b)).
Proof.
  intros Hc Ha Hb.
  rewrite !word_count_tokens; try done.
  - now apply token_count_app.
  - rewrite forallb_app, Ha. reflexivity.
Qed.

Lemma word_count_additive_witness :
  array_length (split_ws (trim (lit " The quick" ++ 9%N :: lit "brown fox. ")))
  = array_length (split_ws (trim (lit " The quick")))
    + array_length (split_ws (trim (lit "brown fox. "))).
Proof.
  apply (word_count_additive (lit " The quick") 9%N (lit "brown fox. "));
    reflexivity.
Defined.

Lemma trimStart_blank_app pre s :
  forallb is_space pre = true -> trimStart (pre ++ s) = trimStart s.
Proof.
  induction pre as [|c pre IH]; simpl; [done|].
  intros [-> H]%andb_prop. now apply IH.
Qed.

Lemma trimEnd_app_blank s post :
  forallb is_space post = true -> trimEnd (s ++ post) = trimEnd s.
Proof.
  intros H. induction s as [|c s IH]; simpl.
  - now apply trimEnd_nil_iff.
  - now rewrite IH.
Qed.

Lemma trimStart_app s post :
  forallb is_space s = false -> trimStart (s ++ post) = trimStart s ++ post.
Proof.
  induction s as [|c s IH]; simpl; [done|].
  destruct (is_space c); simpl; [exact IH|done].
Qed.

Lemma trim_padding pre s post :
  forallb is_space pre = true -> forallb is_space post = true ->
  trim (pre ++ s ++ post) = trim s.
Proof.
  intros Hpre Hpost. unfold trim. rewrite trimStart_blank_app by exact Hpre.
  destruct (forallb is_space s) eqn:Hs.
  - assert (H1 : trim (s ++ post) = []).
    { apply trim_nil_iff. now rewrite forallb_app, Hs. }
    assert (H2 : trim s = []) by now apply trim_nil_iff.
    unfold trim in H1, H2. now rewrite H1, H2.
  - now rewrite trimStart_app, trimEnd_app_blank.
Qed.

(** X2. White space around the submitted text changes neither the
    verdict of the validation nor the word count it computes. *)
Theorem validate_ignores_padding pre s post w :
  forallb is_space pre = true ->
  forallb is_space post = true ->
  validate (VStr (pre ++ s ++ post)) w = validate (VStr s) w.
Proof.
  intros Hpre Hpost. rewrite !validate_string.
  now rewrite trim_padding.
Qed.

Lemma validate_ignores_padding_witness :
  validate (VStr (lit "  " ++ Sample.fox ++ [10%N; 9%N])) Sample.w0
  = validate (VStr Sample.fox) Sample.w0.
Proof.
  apply (validate_ignores_padding (lit "  ") Sample.fox [10%N; 9%N]);
    reflexivity.
Defined.

End WordCountProperties.

(** ** The handlers, case by case *)

Section OldStages.

Context (openai : upstream) (now : Z) (req : request) (w : world).

Let text := prop (body req) "text".
Let sent := completion_request Part000.SYSTEM_PROMPT text.

Lemma old_humanize_no_body :
  nullish (body req) = true ->
  Part000.humanize openai now req w = on_error TypeError w.
Proof. intros Hb. unfold Part000.humanize. run. now rewrite Hb. Qed.

Lemma old_humanize_throws e :
  nullish (body req) = false ->
  validate text w = (Throw e, w) ->
  Part000.humanize openai now req w = on_error e w.
Proof.
  intros Hb Hv. unfold Part000.humanize. run. rewrite Hb. run.
  fold text. rewrite Hv. reflexivity.
Qed.

(** A reply whose content is a string is passed on as it is and split
    without trimming; any other reply ends in the [catch] block, and in
    both cases the call has been recorded and nothing else changed. *)
Lemma old_humanize_resolves wordCount completion :
  nullish (body req) = false ->
  validate text w = (Return (inr wordCount), w) ->
  openai (length (upstream_log w)) sent = Resolved completion ->
  fst (Part000.humanize openai now req w)
  = match reply_content completion with
    | VStr t =>
        json 200 (HumanizeJson (VStr t) wordCount (array_length (split_ws t)))
    | _ => json 500 (ErrorJson MSG_FAILED)
    end
  /\ quota (snd (Part000.humanize openai now req w)) = quota w
  /\ upstream_log (snd (Part000.humanize openai now req w))
     = upstream_log w ++ [sent].
Proof.
  intros Hb Hv Hup. unfold Part000.humanize. run. rewrite Hb. run.
  fold text. rewrite Hv. fold sent. rewrite Hup. simpl.
  unfold reply_content, opt_prop, opt_first.
  destruct (nullish completion) eqn:E1; simpl; [done|].
  destruct (nullish (prop completion "choices")) eqn:E2; simpl; [done|].
  destruct (nullish (first (prop completion "choices"))) eqn:E3; simpl;
    [done|].
  destruct (nullish (prop (first (prop completion "choices")) "message"))
    eqn:E4; simpl; [done|].
  destruct (prop (prop (first (prop completion "choices")) "message")
              "content"); done.
Qed.

End OldStages.

(** Every run of the handler of [server.js] is one of seven cases. *)
Lemma humanize_inv (P : response * world -> Prop) openai now req w :
  (nullish (body req) = true -> P (on_error TypeError w)) ->
  (nullish (body req) = false ->
   truthy (prop (body req) "text") = true ->
   is_string (prop (body req) "text") = false ->
   P (on_error TypeError w)) ->
  (nullish (body req) = false ->
   truthy (prop (body req) "text") = false ->
   is_string (prop (body req) "text") = false ->
   P (json 400 (ErrorJson MSG_NO_TEXT), w)) ->
  (forall s,
      prop (body req) "text" = VStr s -> acceptable s = false ->
      P (json 400 (ErrorJson (if bool_decide (trim s = []) then MSG_NO_TEXT
                              else MSG_TOO_LONG)), w)) ->
  (forall s e,
      prop (body req) "text" = VStr s -> acceptable s = true ->
      openai (length (upstream_log w))
        (completion_request ServerJs.SYSTEM_PROMPT (VStr s)) = Rejected e ->
      P (on_error e
           {| quota := quota w;
              upstream_log := upstream_log w
                ++ [completion_request ServerJs.SYSTEM_PROMPT (VStr s)];
              console := console w ++ [LogProcessing (token_count (trim s))] |})) ->
  (forall s c,
      prop (body req) "text" = VStr s -> acceptable s = true ->
      openai (length (upstream_log w))
        (completion_request ServerJs.SYSTEM_PROMPT (VStr s)) = Resolved c ->
      P (match ServerJs.humanized_text c with
         | VStr t =>
             (json 200
                (HumanizeJson (VStr (trim t)) (token_count (trim s))
                   (if truthy (VStr t) then array_length (split_ws (trim t))
                    else 0)),
              {| quota := quota w;
                 upstream_log := upstream_log w
                   ++ [completion_request ServerJs.SYSTEM_PROMPT (VStr s)];
                 console := console w
                   ++ [LogProcessing (token_count (trim s)); LogSuccess] |})
         | _ =>
             on_error TypeError
               {| quota := quota w;
                  upstream_log := upstream_log w
                    ++ [completion_request ServerJs.SYSTEM_PROMPT (VStr s)];
                  console := console w
                    ++ [LogProcessing (token_count (trim s)); LogSuccess] |}
         end)) ->
  P (ServerJs.humanize openai now req w).
Proof.
  intros H1 H2 H3 H4 H5 H6.
  destruct (nullish (body req)) eqn:Hb.
  { rewrite humanize_no_body by exact Hb. now apply H1. }
  destruct (prop (body req) "text") as [| | | |s| |] eqn:Htext.
  5:{ pose proof (acceptable_validate s w) as Hv. rewrite <- Htext in Hv.
      destruct (acceptable s) eqn:Hacc.
      - destruct (openai (length (upstream_log w))
                    (completion_request ServerJs.SYSTEM_PROMPT (VStr s)))
          as [c|e] eqn:Hup.
        + specialize (H6 s c eq_refl Hacc Hup). rewrite <- Htext in Hup.
          rewrite (humanize_upstream_resolves _ _ _ _ _ _ Hb Hv Hup).
          rewrite Htext. exact H6.
        + specialize (H5 s e eq_refl Hacc Hup). rewrite <- Htext in Hup.
          rewrite (humanize_upstream_rejects _ _ _ _ _ _ Hb Hv Hup).
          rewrite Htext. exact H5.
      - rewrite (humanize_invalid _ _ _ _ _ Hb Hv). now apply H4. }
  all: destruct (truthy (prop (body req) "text")) eqn:Ht;
    [ rewrite (humanize_throws _ _ _ _ TypeError Hb)
        by (apply validate_non_string; [exact Ht|now rewrite Htext]);
      apply H2; [done|now rewrite <- Htext|done]
    | rewrite (humanize_invalid _ _ _ _ _ Hb (validate_falsy _ w Ht));
      apply H3; [done|now rewrite <- Htext|done] ].
Qed.

Lemma humanized_text_string c :
  is_string (ServerJs.humanized_text c) = true
  <-> truthy (reply_content c) = false \/ is_string (reply_content c) = true.
Proof.
  unfold ServerJs.humanized_text, or_else. fold (reply_content c).
  destruct (truthy (reply_content c)) eqn:Ht; simpl.
  - split; [now right|]. now intros [|].
  - split; [now left|reflexivity].
Qed.

(** X3. The handler of [server.js] answers 200 exactly when the text is
    a string that passes the validation, the upstream call resolves, and
    the content of the reply is a string or falsy (absent, null, empty). *)
Theorem humanize_succeeds_iff openai now req w :
  status (fst (ServerJs.humanize openai now req w)) = 200
  <-> exists s c,
        prop (body req) "text" = VStr s
        /\ acceptable s = true
        /\ openai (length (upstream_log w))
             (completion_request ServerJs.SYSTEM_PROMPT (VStr s)) = Resolved c
        /\ (truthy (reply_content c) = false
            \/ is_string (reply_content c) = true).
Proof.
  apply (humanize_inv
           (fun out => status (fst out) = 200
              <-> exists s c,
                    prop (body req) "text" = VStr s
                    /\ acceptable s = true
                    /\ openai (length (upstream_log w))
                         (completion_request ServerJs.SYSTEM_PROMPT (VStr s))
                       = Resolved c
                    /\ (truthy (reply_content c) = false
                        \/ is_string (reply_content c) = true))).
  - intros Hb. rewrite on_error_status. split; [done|].
    intros (s & c & Ht & _). destruct (body req); done.
  - intros _ _ Hs. rewrite on_error_status. split; [done|].
    intros (s & c & Ht & _). now rewrite Ht in Hs.
  - intros _ _ Hs. simpl. split; [done|].
    intros (s & c & Ht & _). now rewrite Ht in Hs.
  - intros s Ht Hacc. simpl. split; [done|].
    intros (s' & c & Ht' & Hacc' & _). congruence.
  - intros s e Ht Hacc Hup. rewrite on_error_status. split; [done|].
    intros (s' & c & Ht' & _ & Hup' & _). congruence.
  - intros s c Ht Hacc Hup. split.
    + intros Hok. exists s, c. repeat split; try done.
      apply humanized_text_string.
      destruct (ServerJs.humanized_text c); try reflexivity;
        now rewrite on_error_status in Hok.
    + intros (s' & c' & Ht' & _ & Hup' & Hstr).
      assert (s' = s) as -> by congruence.
      assert (c' = c) as -> by congruence.
      apply humanized_text_string in Hstr.
      destruct (ServerJs.humanized_text c); try discriminate. reflexivity.
Qed.

(** X4. Whatever the request and the upstream service do, the handler of
    [server.js] calls the upstream service at most once, and only with a
    text that passed the validation, which it sends as submitted (not
    trimmed) with the fixed model and sampling parameters. *)
Theorem humanize_calls_upstream_once openai now req w :
  upstream_log (snd (ServerJs.humanize openai now req w)) = upstream_log w
  \/ exists s,
       prop (body req) "text" = VStr s
       /\ acceptable s = true
       /\ upstream_log (snd (ServerJs.humanize openai now req w))
          = upstream_log w
            ++ [ {| model := "gpt-4o-mini";
                    system_content := ServerJs.SYSTEM_PROMPT;
                    user_content := VStr s;
                    max_tokens := 2000;
                    temperature := 8 # 10;
                    presence_penalty := 2 # 10;
                    frequency_penalty := 3 # 10 |} ].
Proof.
  apply (humanize_inv
           (fun out =>
              upstream_log (snd out) = upstream_log w
              \/ exists s,
                   prop (body req) "text" = VStr s
                   /\ acceptable s = true
                   /\ upstream_log (snd out)
                      = upstream_log w
                        ++ [completion_request ServerJs.SYSTEM_PROMPT (VStr s)])).
  - intros _. left. apply on_error_world.
  - intros _ _ _. left. apply on_error_world.
  - intros _ _ _. now left.
  - intros s _ _. now left.
  - intros s e Ht Hacc _. right. exists s. repeat split; try done.
    apply on_error_world.
  - intros s c Ht Hacc _. right. exists s. repeat split; try done.
    destruct (ServerJs.humanized_text c); try apply on_error_world.
    reflexivity.
Qed.

(** [split] never returns an empty array. *)
Lemma split_nonempty s : 1 <= array_length (split_ws s).
Proof.
  unfold array_length, split_ws. generalize (@nil code_unit) at 1.
  generalize false.
  induction s as [|y r IH]; intros b0 cur; simpl; [lia|].
  destruct (is_space y); [destruct b0; [apply IH|simpl; lia]|apply IH].
Qed.

(** X5. In every 200 response of [server.js], [originalWordCount] lies
    between 1 and 1000, [humanizedText] is a string without leading or
    trailing white space, and [humanizedWordCount] is not negative. *)
Theorem success_response_shape openai now req w :
  status (fst (ServerJs.humanize openai now req w)) = 200 ->
  exists t originalWordCount humanizedWordCount,
    content (fst (ServerJs.humanize openai now req w))
    = HumanizeJson (VStr t) originalWordCount humanizedWordCount
    /\ 1 <= originalWordCount <= 1000
    /\ starts_clean t = true /\ ends_clean t = true
    /\ 0 <= humanizedWordCount.
Proof.
  apply (humanize_inv
           (fun out =>
              status (fst out) = 200 ->
              exists t originalWordCount humanizedWordCount,
                content (fst out)
                = HumanizeJson (VStr t) originalWordCount humanizedWordCount
                /\ 1 <= originalWordCount <= 1000
                /\ starts_clean t = true /\ ends_clean t = true
                /\ 0 <= humanizedWordCount)).
  - intros _ H. now rewrite on_error_status in H.
  - intros _ _ _ H. now rewrite on_error_status in H.
  - intros _ _ _ H. discriminate H.
  - intros s _ _ H. discriminate H.
  - intros s e _ _ _ H. now rewrite on_error_status in H.
  - intros s c _ Hacc _ H.
    destruct (ServerJs.humanized_text c) as [| | | |t| |];
      try (now rewrite on_error_status in H).
    exists (trim t), (token_count (trim s)). eexists.
    split; [reflexivity|].
    unfold acceptable in Hacc. apply andb_prop in Hacc as [Hne Hle].
    apply negb_true_iff, bool_decide_eq_false in Hne.
    apply Z.leb_le in Hle.
    pose proof (split_trim_count s Hne) as Hc.
    pose proof (split_nonempty (trim s)).
    repeat split; try lia; try apply trim_starts_clean;
      try apply trim_ends_clean.
    destruct (truthy (VStr t)); unfold array_length; lia.
Qed.

Lemma success_response_shape_witness :
  exists t originalWordCount humanizedWordCount,
    HumanizeJson (VStr (lit "A fast fox.")) 4 3
    = HumanizeJson (VStr t) originalWordCount humanizedWordCount
    /\ 1 <= originalWordCount <= 1000
    /\ starts_clean t = true /\ ends_clean t = true
    /\ 0 <= humanizedWordCount.
Proof.
  apply (success_response_shape
           (Sample.replying (VStr (lit " A fast fox. "))) 0
           (Sample.post (VStr Sample.fox)) Sample.w0).
  reflexivity.
Defined.

(** X6. When the content of the upstream reply is truthy but not a string
    (a number, an array, an object), the handler of [server.js] answers 500
    with the generic message: [humanizedText.trim()] throws after the
    success line has been logged. *)
Theorem non_string_reply_fails openai now req w s c :
  nullish (body req) = false ->
  prop (body req) "text" = VStr s ->
  acceptable s = true ->
  openai (length (upstream_log w))
    (completion_request ServerJs.SYSTEM_PROMPT (VStr s)) = Resolved c ->
  truthy (reply_content c) = true ->
  is_string (reply_content c) = false ->
  fst (ServerJs.humanize openai now req w) = json 500 (ErrorJson MSG_FAILED)
  /\ console (snd (ServerJs.humanize openai now req w))
     = console w ++ [LogProcessing (token_count (trim s)); LogSuccess;
                     LogError TypeError].
Proof.
  intros Hb Ht Hacc Hup Htr Hstr.
  pose proof (acceptable_validate s w) as Hv.
  rewrite Hacc, <- Ht in Hv. rewrite <- Ht in Hup.
  rewrite (humanize_upstream_resolves _ _ _ _ _ _ Hb Hv Hup).
  unfold ServerJs.humanized_text, or_else. fold (reply_content c).
  rewrite Htr.
  destruct (reply_content c); try discriminate; simpl;
    now rewrite <- app_assoc.
Qed.

Lemma non_string_reply_fails_witness :
  fst (ServerJs.humanize (Sample.replying (VArr [VStr (lit "Hi")])) 0
         (Sample.post (VStr Sample.fox)) Sample.w0)
  = json 500 (ErrorJson MSG_FAILED).
Proof.
  refine (proj1 (non_string_reply_fails
                   (Sample.replying (VArr [VStr (lit "Hi")])) 0
                   (Sample.post (VStr Sample.fox)) Sample.w0 Sample.fox
                   (Sample.completion_with (VArr [VStr (lit "Hi")]))
                   _ _ _ _ _ _)); reflexivity.
Defined.

(** X7. A request without a parsed body ([req.body] undefined or null)
    makes the destructuring throw: both versions of the handler answer 500
    with the generic message, log the error and call nothing upstream. *)
Theorem no_body_fails openai now req w :
  nullish (body req) = true ->
  ServerJs.humanize openai now req w
  = (json 500 (ErrorJson MSG_FAILED),
     {| quota := quota w; upstream_log := upstream_log w;
        console := console w ++ [LogError TypeError] |})
  /\ Part000.humanize openai now req w
     = (json 500 (ErrorJson MSG_FAILED),
        {| quota := quota w; upstream_log := upstream_log w;
           console := console w ++ [LogError TypeError] |}).
Proof.
  intros Hb.
  now rewrite humanize_no_body, old_humanize_no_body by exact Hb.
Qed.

Lemma no_body_fails_witness :
  fst (ServerJs.humanize (Sample.replying VNull) 0
         {| method := POST; path := ApiHumanize; ip := Sample.client;
            body := VUndefined |} Sample.w0)
  = json 500 (ErrorJson MSG_FAILED).
Proof.
  refine (f_equal fst
            (proj1 (no_body_fails (Sample.replying VNull) 0
                      {| method := POST; path := ApiHumanize;
                         ip := Sample.client; body := VUndefined |}
                      Sample.w0 _))).
  reflexivity.
Defined.

(** X8. The handler of [part_000] returns a string reply as it is, not
    trimmed, and counts the elements of its split: 1 for the empty reply,
    otherwise the number of tokens plus one for leading and one for
    trailing white space. *)
Theorem old_reply_word_count openai now req w s c t :
  nullish (body req) = false ->
  prop (body req) "text" = VStr s ->
  acceptable s = true ->
  openai (length (upstream_log w))
    (completion_request Part000.SYSTEM_PROMPT (VStr s)) = Resolved c ->
  reply_content c = VStr t ->
  fst (Part000.humanize openai now req w)
  = json 200
      (HumanizeJson (VStr t) (token_count (trim s))
         (if bool_decide (t = []) then 1
          else token_count t + edge (starts_clean t) + edge (ends_clean t))).
Proof.
  intros Hb Ht Hacc Hup Hc.
  pose proof (acceptable_validate s w) as Hv.
  rewrite Hacc, <- Ht in Hv. rewrite <- Ht in Hup.
  destruct (old_humanize_resolves openai now req w _ _ Hb Hv Hup) as [-> _].
  rewrite Hc. case_bool_decide as Hnil.
  - now subst t.
  - now rewrite split_length.
Qed.

Lemma old_reply_word_count_witness :
  fst (Part000.humanize (Sample.replying (VStr (lit " Hi there "))) 0
         (Sample.post (VStr Sample.fox)) Sample.w0)
  = json 200 (HumanizeJson (VStr (lit " Hi there ")) 4 4).
Proof.
  apply (old_reply_word_count (Sample.replying (VStr (lit " Hi there "))) 0
           (Sample.post (VStr Sample.fox)) Sample.w0 Sample.fox
           (Sample.completion_with (VStr (lit " Hi there ")))
           (lit " Hi there ")); reflexivity.
Defined.

(** The handler of [part_000] changes no quota record, answers 200, 400
    or 500, and calls upstream at most once, with a validated text. *)
Lemma old_humanize_outcome openai now req w :
  quota (snd (Part000.humanize openai now req w)) = quota w
  /\ (status (fst (Part000.humanize openai now req w)) = 200
      \/ status (fst (Part000.humanize openai now req w)) = 400
      \/ status (fst (Part000.humanize openai now req w)) = 500)
  /\ (upstream_log (snd (Part000.humanize openai now req w)) = upstream_log w
      \/ exists s,
           prop (body req) "text" = VStr s
           /\ acceptable s = true
           /\ upstream_log (snd (Part000.humanize openai now req w))
              = upstream_log w
                ++ [completion_request Part000.SYSTEM_PROMPT (VStr s)]).
Proof.
  assert (Herr : forall e,
            quota (snd (on_error e w)) = quota w
            /\ (status (fst (on_error e w)) = 200
                \/ status (fst (on_error e w)) = 400
                \/ status (fst (on_error e w)) = 500)
            /\ (upstream_log (snd (on_error e w)) = upstream_log w
                \/ exists s,
                     prop (body req) "text" = VStr s
                     /\ acceptable s = true
                     /\ upstream_log (snd (on_error e w))
                        = upstream_log w
                          ++ [completion_request Part000.SYSTEM_PROMPT
                                (VStr s)])).
  { intros e. rewrite on_error_status.
    destruct (on_error_world e w) as [-> ->]. auto. }
  destruct (nullish (body req)) eqn:Hb.
  { rewrite old_humanize_no_body by exact Hb. apply Herr. }
  destruct (prop (body req) "text") as [| | | |s| |] eqn:Htext.
  5:{ pose proof (acceptable_validate s w) as Hv. rewrite <- Htext in Hv.
      destruct (acceptable s) eqn:Hacc.
      - destruct (openai (length (upstream_log w))
                    (completion_request Part000.SYSTEM_PROMPT
                       (prop (body req) "text"))) as [c|e] eqn:Hup.
        + destruct (old_humanize_resolves openai now req w _ _ Hb Hv Hup)
            as (-> & -> & ->).
          split; [done|]. split.
          * destruct (reply_content c); simpl; auto.
          * right. exists s. now rewrite Htext.
        + rewrite (old_humanize_upstream_rejects _ _ _ _ _ _ Hb Hv Hup).
          rewrite on_error_status.
          match goal with
          | |- context [on_error e ?w1] =>
              destruct (on_error_world e w1) as [-> ->]
          end.
          simpl. split; [done|]. split; [auto|].
          right. exists s. now rewrite Htext.
      - rewrite (old_humanize_invalid _ _ _ _ _ Hb Hv). simpl.
        split; [done|]. split; [|now left].
        case_bool_decide; simpl; auto. }
  all: destruct (truthy (prop (body req) "text")) eqn:Ht;
    [ rewrite (old_humanize_throws _ _ _ _ TypeError Hb)
        by (apply validate_non_string; [exact Ht|now rewrite Htext]);
      apply Herr
    | rewrite (old_humanize_invalid _ _ _ _ _ Hb (validate_falsy _ w Ht));
      simpl; auto ].
Qed.

(** X9. Both versions of the handler always answer, with status 200, 400
    or 500, and never touch the quota records. *)
Theorem handlers_answer_200_400_500 openai now req w :
  (quota (snd (ServerJs.humanize openai now req w)) = quota w
   /\ (status (fst (ServerJs.humanize openai now req w)) = 200
       \/ status (fst (ServerJs.humanize openai now req w)) = 400
       \/ status (fst (ServerJs.humanize openai now req w)) = 500))
  /\ (quota (snd (Part000.humanize openai now req w)) = quota w
      /\ (status (fst (Part000.humanize openai now req w)) = 200
          \/ status (fst (Part000.humanize openai now req w)) = 400
          \/ status (fst (Part000.humanize openai now req w)) = 500)).
Proof.
  split; [apply humanize_outcome|].
  destruct (old_humanize_outcome openai now req w) as (H1 & H2 & _).
  now split.
Qed.

(** ** Routing *)

Section Routing.

Import RateLimiterMemory.

(** X10. In [server.js] the root route is registered before the rate
    limiting middleware: GET / answers the banner for every client, also
    an exhausted one, and changes nothing: it consumes no quota. *)
Theorem root_is_not_limited parsed openai now req w :
  method req = GET ->
  path req = Root ->
  ServerJs.app parsed openai now req w
  = (json 200 (TextBody ServerJs.BANNER), w).
Proof.
  intros Hm Hp. unfold ServerJs.app, ServerJs.layers. simpl.
  now rewrite Hm, Hp.
Qed.

Lemma root_is_not_limited_witness :
  ServerJs.app None (Sample.replying VNull) 5
    {| method := GET; path := Root; ip := Sample.client; body := VUndefined |}
    Sample.spent
  = (json 200 (TextBody ServerJs.BANNER), Sample.spent).
Proof.
  apply (root_is_not_limited None (Sample.replying VNull) 5
           {| method := GET; path := Root; ip := Sample.client;
              body := VUndefined |} Sample.spent); reflexivity.
Defined.

(** Behind the parser, every request but GET / is counted first: the
    quota records after the request are those that [consume] leaves,
    whether the request is then answered 200, 400, 404 or 500, and the
    response is 429 exactly when [consume] rejects. *)
Lemma every_other_request_is_counted parsed openai now req w :
  behind_limiter req = true ->
  quota (snd (ServerJs.app parsed openai now req w))
  = snd (consume (ServerJs.rateLimiter parsed) now (ip req) (quota w))
  /\ (status (fst (ServerJs.app parsed openai now req w)) = 429
      <-> fst (consume (ServerJs.rateLimiter parsed) now (ip req) (quota w))
          = false).
Proof.
  intros Hb. split; [now apply app_quota|now apply app_status].
Qed.

Lemma every_other_request_is_counted_witness :
  quota (snd (ServerJs.app None (Sample.replying VNull) 0
                (Sample.post (VStr [])) Sample.w0))
  = snd (consume (ServerJs.rateLimiter None) 0 Sample.client ∅).
Proof.
  refine (proj1 (every_other_request_is_counted None (Sample.replying VNull)
                   0 (Sample.post (VStr [])) Sample.w0 _)).
  reflexivity.
Defined.



(** [part_000] has no route before the middleware. *)
Lemma old_app_limited openai now req w :
  Part000.app openai now req w =
  if fst (consume Part000.rateLimiter now (ip req) (quota w))
  then dispatch [ Route POST ApiHumanize (Part000.humanize openai);
                  Route GET ApiHealth health ] now req
         (with_quota (snd (consume Part000.rateLimiter now (ip req) (quota w)))
            w)
  else (json 429 (ErrorJson Part000.MSG_LIMIT),
        with_quota (snd (consume Part000.rateLimiter now (ip req) (quota w))) w).
Proof.
  unfold Part000.app, Part000.layers. simpl.
  unfold Part000.rate_limit.
  destruct (consume Part000.rateLimiter now (ip req) (quota w)) as [[|] q];
    reflexivity.
Qed.

Lemma old_routes_outcome openai now req w :
  let out := dispatch [ Route POST ApiHumanize (Part000.humanize openai);
                        Route GET ApiHealth health ] now req w in
  quota (snd out) = quota w /\ status (fst out) <> 429.
Proof.
  simpl.
  destruct (method_eqb (method req) POST && endpoint_eqb (path req) ApiHumanize).
  { destruct (old_humanize_outcome openai now req w) as (Hq & Hs & _).
    split; [exact Hq|]. lia. }
  destruct (method_eqb (method req) GET && endpoint_eqb (path req) ApiHealth);
    simpl; split; done.
Qed.

Lemma old_app_quota openai now req w :
  quota (snd (Part000.app openai now req w))
  = snd (consume Part000.rateLimiter now (ip req) (quota w)).
Proof.
  rewrite old_app_limited.
  destruct (fst (consume Part000.rateLimiter now (ip req) (quota w)));
    [|reflexivity].
  now destruct (old_routes_outcome openai now req
                  (with_quota
                     (snd (consume Part000.rateLimiter now (ip req) (quota w)))
                     w)) as [-> _].
Qed.

Lemma old_app_status openai now req w :
  status (fst (Part000.app openai now req w)) = 429
  <-> fst (consume Part000.rateLimiter now (ip req) (quota w)) = false.
Proof.
  rewrite old_app_limited.
  destruct (fst (consume Part000.rateLimiter now (ip req) (quota w)));
    [|done].
  destruct (old_routes_outcome openai now req
              (with_quota
                 (snd (consume Part000.rateLimiter now (ip req) (quota w))) w))
    as [_ H].
  split; [intros; contradiction|discriminate].
Qed.

(** X12. In [part_000] the middleware comes before every route, so GET /
    is counted like any request: it gets 404 when [consume] admits it and
    429 with the daily-limit message when it does not, and the quota
    records are those that [consume] leaves. *)
Theorem old_root_is_limited openai now req w :
  method req = GET ->
  path req = Root ->
  fst (Part000.app openai now req w)
  = (if fst (RateLimiterMemory.consume Part000.rateLimiter now (ip req)
               (quota w))
     then json 404 NotFound
     else json 429 (ErrorJson Part000.MSG_LIMIT))
  /\ quota (snd (Part000.app openai now req w))
     = snd (consume Part000.rateLimiter now (ip req) (quota w)).
Proof.
  intros Hm Hp. split; [|apply old_app_quota].
  rewrite old_app_limited. simpl. rewrite Hm, Hp. simpl.
  now destruct (fst (consume Part000.rateLimiter now (ip req) (quota w))).
Qed.

Lemma old_root_is_limited_witness :
  fst (Part000.app (Sample.replying VNull) 0
         {| method := GET; path := Root; ip := Sample.client;
            body := VUndefined |} Sample.w0)
  = json 404 NotFound.
Proof.
  refine (proj1 (old_root_is_limited (Sample.replying VNull) 0
                   {| method := GET; path := Root; ip := Sample.client;
                      body := VUndefined |} Sample.w0 _ _)); reflexivity.
Defined.

(** X13. Only POST /api/humanize reaches the upstream service: every
    other request, in both versions, leaves the upstream log and the
    console as they were. *)
Theorem only_humanize_calls_upstream parsed openai now req w :
  method_eqb (method req) POST && endpoint_eqb (path req) ApiHumanize = false ->
  (upstream_log (snd (ServerJs.app parsed openai now req w)) = upstream_log w
   /\ console (snd (ServerJs.app parsed openai now req w)) = console w)
  /\ (upstream_log (snd (Part000.app openai now req w)) = upstream_log w
      /\ console (snd (Part000.app openai now req w)) = console w).
Proof.
  intros Hno. split.
  - destruct (behind_limiter req) eqn:Hb.
    + rewrite app_limited by exact Hb. simpl. rewrite Hno.
      destruct (fst (consume _ _ _ _)); [|done].
      now destruct (method_eqb (method req) GET
                    && endpoint_eqb (path req) ApiHealth).
    + unfold behind_limiter in Hb. apply negb_false_iff in Hb.
      unfold ServerJs.app, ServerJs.layers. simpl. now rewrite Hb.
  - rewrite old_app_limited. simpl. rewrite Hno.
    destruct (fst (consume _ _ _ _)); [|done].
    now destruct (method_eqb (method req) GET
                  && endpoint_eqb (path req) ApiHealth).
Qed.

Lemma only_humanize_calls_upstream_witness :
  upstream_log (snd (ServerJs.app None (Sample.replying VNull) 0
                       Sample.get_health Sample.w0)) = [].
Proof.
  refine (proj1 (proj1 (only_humanize_calls_upstream None
                          (Sample.replying VNull) 0 Sample.get_health
                          Sample.w0 _))).
  reflexivity.
Defined.

End Routing.

(** ** The timestamp can be read back *)

Section TimestampRoundTrip.

Lemma days_from_civil_inverse d :
  days_from_civil (YearFromDay d) (MonthFromDay d) (DateFromDay d) = d.
Proof.
  pose proof (day_of_era_bound d) as HD.
  pose proof (year_of_era_bound _ HD) as Hy.
  pose proof (month_index_bound _ HD) as Hm.
  assert (Hd : d + 719468 = 146097 * ((d + 719468) / 146097) + day_of_era d).
  { unfold day_of_era. apply Z.div_mod. lia. }
  unfold days_from_civil, YearFromDay, DateFromDay, MonthFromDay.
  set (D := day_of_era d) in *.
  set (era := (d + 719468) / 146097) in *.
  set (yoe := year_of_era D) in *.
  set (mp := month_index D) in *.
  set (M := if mp <? 10 then mp + 3 else mp - 9).
  assert (HM : (if 2 <? M then M - 3 else M + 9) = mp).
  { subst M. destruct (Z.ltb_spec mp 10).
    - destruct (Z.ltb_spec 2 (mp + 3)); lia.
    - destruct (Z.ltb_spec 2 (mp - 9)); lia. }
  rewrite HM.
  assert (Hy' : (if M <=? 2 then (if M <=? 2 then yoe + era * 400 + 1
                                  else yoe + era * 400) - 1
                 else if M <=? 2 then yoe + era * 400 + 1
                      else yoe + era * 400) = yoe + era * 400).
  { destruct (M <=? 2); lia. }
  rewrite Hy'.
  assert (He : (yoe + era * 400) / 400 = era).
  { symmetry. apply (Z.div_unique _ _ _ yoe); lia. }
  rewrite He.
  replace (yoe + era * 400 - era * 400) with yoe by lia.
  unfold day_of_year. fold yoe. lia.
Qed.

Lemma time_within_day t :
  make_time (Day t) (HourFromTime t) (MinFromTime t) (SecFromTime t)
    (msFromTime t) = t.
Proof.
  unfold make_time, Day, HourFromTime, MinFromTime, SecFromTime, msFromTime,
    msPerDay.
  Z.to_euclidean_division_equations; lia.
Qed.

Lemma read_digits_pad_small n v rest :
  0 <= v < 10 ^ Z.of_nat n ->
  read_digits n 0 (pad n v +:+ rest) = Some (v, rest).
Proof.
  intros Hv. rewrite read_digits_pad, Z.mod_small by exact Hv.
  reflexivity.
Qed.

Lemma read_signed_year_string y rest :
  -999999 <= y <= 999999 ->
  read_signed_year (year_string y +:+ rest) = Some (y, rest).
Proof.
  intros Hy. unfold year_string.
  destruct (Z.leb_spec 0 y); destruct (Z.leb_spec y 9999);
    cbn [andb]; try lia.
  - transitivity (read_digits 4 0 (pad 4 y +:+ rest)).
    + change (pad 4 y) with (String (digit (y / 10 ^ Z.of_nat 3)) (pad 3 y)).
      rewrite append_cons. unfold read_signed_year.
      now destruct (digit_not_sign (y / 10 ^ Z.of_nat 3)) as [-> ->].
    + apply read_digits_pad_small. change (10 ^ Z.of_nat 4) with 10000. lia.
  - destruct (Z.ltb_spec y 0); [lia|].
    rewrite !append_cons, append_empty.
    cbn [read_signed_year Ascii.eqb Bool.eqb].
    rewrite read_digits_pad_small
      by (change (10 ^ Z.of_nat 6) with 1000000; lia).
    do 2 f_equal. lia.
  - destruct (Z.ltb_spec y 0); [|lia].
    rewrite !append_cons, append_empty.
    cbn [read_signed_year Ascii.eqb Bool.eqb].
    rewrite read_digits_pad_small
      by (change (10 ^ Z.of_nat 6) with 1000000; lia).
    cbn [mbind option_bind fst snd]. do 2 f_equal. lia.
Qed.

(** [toISOString] loses nothing: the string denotes the time value it was
    written from. *)
Lemma parse_toISOString t : valid_time t -> parse_iso (toISOString t) = Some t.
Proof.
  intros Ht. unfold toISOString, parse_iso.
  pose proof (YearFromDay_bound t Ht).
  pose proof (MonthFromDay_bound (Day t)).
  pose proof (DateFromDay_bound (Day t)).
  assert (0 <= HourFromTime t < 24) by (apply Z.mod_pos_bound; lia).
  assert (0 <= MinFromTime t < 60) by (apply Z.mod_pos_bound; lia).
  assert (0 <= SecFromTime t < 60) by (apply Z.mod_pos_bound; lia).
  assert (0 <= msFromTime t < 1000) by (apply Z.mod_pos_bound; lia).
  rewrite read_signed_year_string by lia.
  repeat (rewrite ?append_cons, ?append_empty;
          cbn [mbind option_bind read_char Ascii.eqb Bool.eqb andb fst snd];
          rewrite ?read_digits_pad_small
            by (try change (10 ^ Z.of_nat 2) with 100;
                try change (10 ^ Z.of_nat 3) with 1000; lia)).
  now rewrite days_from_civil_inverse, time_within_day.
Qed.

(** X14. The timestamp of the health check carries the time of the
    request to the millisecond: it reads back as that time value, so two
    health checks answered alike were served at the same time value. *)
Theorem health_timestamp_exact t1 t2 req1 req2 w1 w2 :
  valid_time t1 ->
  valid_time t2 ->
  (exists ts,
      fst (health t1 req1 w1) = json 200 (HealthJson "OK" "Humanivio API" ts)
      /\ parse_iso ts = Some t1)
  /\ (fst (health t1 req1 w1) = fst (health t2 req2 w2) -> t1 = t2).
Proof.
  intros Ht1 Ht2. split.
  - eexists. split; [reflexivity|]. now apply parse_toISOString.
  - unfold health. simpl. intros [= Heq].
    pose proof (parse_toISOString t1 Ht1) as P1.
    pose proof (parse_toISOString t2 Ht2) as P2.
    rewrite Heq in P1. congruence.
Qed.

Lemma health_timestamp_exact_witness :
  exists ts,
    fst (health 1700000000000 Sample.get_health Sample.w0)
    = json 200 (HealthJson "OK" "Humanivio API" ts)
    /\ parse_iso ts = Some 1700000000000.
Proof.
  refine (proj1 (health_timestamp_exact 1700000000000 0 Sample.get_health
                   Sample.get_health Sample.w0 Sample.w0 _ _));
    unfold valid_time; lia.
Defined.

End TimestampRoundTrip.

(** ** The daily limit of [part_000] *)

Section Window.

Import RateLimiterMemory.

Context (app : handler) (o : options).

Hypothesis app_counts : forall t req w,
  quota (snd (app t req w)) = snd (consume o t (ip req) (quota w)).

Hypothesis app_rejects : forall t req w,
  status (fst (app t req w)) = 429
  <-> fst (consume o t (ip req) (quota w)) = false.

Lemma serve_all_step t req rest w :
  serve_all app ((t, req) :: rest) w
  = ((req, fst (app t req w)) :: fst (serve_all app rest (snd (app t req w))),
     snd (serve_all app rest (snd (app t req w)))).
Proof.
  simpl. destruct (app t req w) as [res w1]. simpl.
  now destruct (serve_all app rest w1).
Qed.

(** For any application that counts every request with [consume] and
    answers 429 exactly on rejection: within an active window the [i]-th
    next request of a client is rejected exactly when the counter plus [i]
    has reached the capacity. *)
Lemma window_statuses k reqs : forall w r,
  quota w !! k = Some r ->
  consumed r <= points o ->
  Forall (fun p => ip (snd p) = k -> window_active o (fst p) r = true) reqs ->
  forall i res,
    responses_to k (fst (serve_all app reqs w)) !! i = Some res ->
    (status res = 429 <-> points o <= consumed r + Z.of_nat i).
Proof using app_counts app_rejects.
  induction reqs as [|[t req] rest IH]; intros w r Hr Hc HF.
  - intros i res [=].
  - apply Forall_cons in HF as [Hact HF]. simpl in Hact.
    rewrite serve_all_step. simpl. rewrite responses_to_cons.
    pose proof (app_counts t req w) as Hq.
    pose proof (app_rejects t req w) as Hs.
    destruct (decide (ip req = k)) as [Hk|Hk].
    + specialize (Hact Hk).
      pose proof (consume_same o t (ip req) (quota w)) as Hsame.
      pose proof (consume_admitted o t (ip req) (quota w)) as Hadm.
      rewrite Hk in Hsame, Hadm, Hs, Hq.
      rewrite (current_record_active o t k _ r Hr Hact) in Hsame, Hadm.
      rewrite <- Hq in Hsame.
      destruct (fst (consume o t k (quota w))).
      * assert (Hlt : consumed r < points o) by now apply Hadm.
        intros [|i] res Hi; simpl in Hi.
        -- injection Hi as <-. split; [intros H; apply Hs in H; done|lia].
        -- rewrite (IH _ _ Hsame ltac:(simpl; lia) HF i res Hi). simpl. lia.
      * assert (Hge : points o <= consumed r).
        { destruct (Z.lt_ge_cases (consumed r) (points o)) as [H|H];
            [|exact H].
          apply Hadm in H. discriminate. }
        intros [|i] res Hi; simpl in Hi.
        -- injection Hi as <-. split; [lia|intros _; now apply Hs].
        -- rewrite (IH _ _ Hsame Hc HF i res Hi). lia.
    + assert (Hr1 : quota (snd (app t req w)) !! k = Some r).
      { rewrite Hq, consume_other by exact Hk. exact Hr. }
      exact (IH _ _ Hr1 Hc HF).
Qed.

End Window.

(** X15. In [part_000] the capacity is the constant 10 and every route,
    GET / included, is counted: a client that starts a window at [t0] and
    sends all its requests within 24 hours of [t0] gets 429 on exactly the
    requests after its tenth, whatever it asks for and whatever other
    clients do in between. *)
Theorem old_limit_is_ten openai k t0 req0 rest w :
  ip req0 = k ->
  (forall r, quota w !! k = Some r ->
             RateLimiterMemory.window_active Part000.rateLimiter t0 r = false) ->
  Forall (fun p => ip (snd p) = k -> fst p - t0 < 86400000) rest ->
  forall i res,
    responses_to k
      (fst (serve_all (Part000.app openai) ((t0, req0) :: rest) w)) !! i
    = Some res ->
    (status res = 429 <-> 10 <= Z.of_nat i).
Proof.
  intros Hk Hfresh HF.
  rewrite serve_all_step. simpl. rewrite responses_to_cons.
  destruct (decide (ip req0 = k)) as [_|]; [|done].
  pose proof (old_app_quota openai t0 req0 w) as Hq.
  pose proof (old_app_status openai t0 req0 w) as Hs.
  pose proof (consume_same Part000.rateLimiter t0 (ip req0) (quota w)) as Hsame.
  pose proof (consume_admitted Part000.rateLimiter t0 (ip req0) (quota w))
    as Hadm.
  rewrite Hk in Hsame, Hadm, Hs, Hq.
  rewrite (current_record_fresh Part000.rateLimiter t0 k _ Hfresh)
    in Hsame, Hadm.
  rewrite <- Hq in Hsame. simpl in Hsame, Hadm.
  assert (Ha : fst (RateLimiterMemory.consume Part000.rateLimiter t0 k
                      (quota w)) = true) by (apply Hadm; lia).
  rewrite Ha in Hsame, Hs.
  intros [|i] res Hi; simpl in Hi.
  - injection Hi as <-. split; [intros H; apply Hs in H; done|lia].
  - rewrite (window_statuses (Part000.app openai) Part000.rateLimiter
               (old_app_quota openai) (old_app_status openai) k rest _ _
               Hsame ltac:(simpl; lia)
               ltac:(eapply Forall_impl; [exact HF|];
                     intros [t req] H Hip; apply Z.ltb_lt; simpl;
                     now apply H)
               i res Hi).
    simpl. lia.
Qed.

Lemma old_limit_is_ten_witness :
  status (json 429 (ErrorJson Part000.MSG_LIMIT)) = 429 <-> 10 <= Z.of_nat 10.
Proof.
  apply (old_limit_is_ten (Sample.replying VNull) Sample.client 0
           Sample.get_health (repeat (1, Sample.post (VStr [])) 11)
           Sample.w0).
  - reflexivity.
  - intros r H. discriminate H.
  - repeat constructor.
  - reflexivity.
Defined.

(** ** The word limit, in words *)

Lemma token_count_blank s : forallb is_space s = true -> token_count s = 0.
Proof.
  intros H. apply trim_nil_iff in H.
  unfold token_count. now rewrite <- tokens_trim, H.
Qed.

Lemma token_count_positive s : forallb is_space s = false -> 1 <= token_count s.
Proof.
  intros H. rewrite <- word_count_tokens by exact H. apply split_nonempty.
Qed.

(** X16. The validation accepts a string exactly when it has between 1
    and 1000 words (maximal runs of characters that are not white space),
    and the word count it passes on is that number. *)
Theorem validate_accepts_iff s n w :
  validate (VStr s) w = (Return (inr n), w)
  <-> n = token_count s /\ 1 <= n <= 1000.
Proof.
  rewrite validate_string.
  destruct (forallb is_space s) eqn:Hs.
  - pose proof (token_count_blank s Hs) as Hz.
    apply trim_nil_iff in Hs. rewrite bool_decide_eq_true_2 by exact Hs.
    split; [discriminate|]. lia.
  - pose proof (token_count_positive s Hs) as Hp.
    rewrite word_count_tokens by exact Hs.
    rewrite bool_decide_eq_false_2
      by (intros H; apply trim_nil_iff in H; congruence).
    destruct (Z.ltb_spec 1000 (token_count s)).
    + split; [discriminate|]. lia.
    + split; [intros [= <-]; lia|]. now intros [-> _].
Qed.

(** ** The two versions side by side *)

Lemma trim_clean t :
  starts_clean t = true -> ends_clean t = true -> trim t = t.
Proof.
  intros Hs He. unfold trim.
  assert (trimStart t = t) as ->.
  { destruct t as [|c r]; [done|]. simpl in *.
    now destruct (is_space c). }
  clear Hs. induction t as [|c r IH]; [done|].
  simpl. rewrite IH by now apply ends_clean_tail in He.
  destruct r; [|done]. simpl in He. now destruct (is_space c).
Qed.

(** X17. The two versions of the handler answer alike whenever the reply
    needs none of what [server.js] added: for a reply whose content is a
    non-empty string without leading or trailing white space, both answer
    200 with that string and its number of tokens. *)
Theorem versions_agree_on_clean_reply openai now req w s c t :
  nullish (body req) = false ->
  prop (body req) "text" = VStr s ->
  acceptable s = true ->
  openai (length (upstream_log w))
    (completion_request ServerJs.SYSTEM_PROMPT (VStr s)) = Resolved c ->
  openai (length (upstream_log w))
    (completion_request Part000.SYSTEM_PROMPT (VStr s)) = Resolved c ->
  reply_content c = VStr t ->
  t <> [] -> starts_clean t = true -> ends_clean t = true ->
  fst (ServerJs.humanize openai now req w)
  = json 200 (HumanizeJson (VStr t) (token_count (trim s)) (token_count t))
  /\ fst (Part000.humanize openai now req w)
     = fst (ServerJs.humanize openai now req w).
Proof.
  intros Hb Ht Hacc Hup1 Hup2 Hc Hne Hs He.
  pose proof (acceptable_validate s w) as Hv.
  rewrite Hacc, <- Ht in Hv. rewrite <- Ht in Hup1, Hup2.
  destruct (old_humanize_resolves openai now req w _ _ Hb Hv Hup2) as [-> _].
  rewrite (humanize_upstream_resolves _ _ _ _ _ _ Hb Hv Hup1).
  unfold ServerJs.humanized_text, or_else. fold (reply_content c).
  rewrite Hc. destruct t as [|x r]; [done|]. cbn [truthy fst].
  rewrite trim_clean by done.
  rewrite split_length by done. rewrite Hs, He. unfold edge.
  split; do 2 f_equal; lia.
Qed.

Lemma versions_agree_on_clean_reply_witness :
  fst (Part000.humanize (Sample.replying (VStr (lit "A fast fox."))) 0
         (Sample.post (VStr Sample.fox)) Sample.w0)
  = fst (ServerJs.humanize (Sample.replying (VStr (lit "A fast fox."))) 0
           (Sample.post (VStr Sample.fox)) Sample.w0).
Proof.
  refine (proj2 (versions_agree_on_clean_reply
                   (Sample.replying (VStr (lit "A fast fox."))) 0
                   (Sample.post (VStr Sample.fox)) Sample.w0 Sample.fox
                   (Sample.completion_with (VStr (lit "A fast fox.")))
                   (lit "A fast fox.") _ _ _ _ _ _ _ _ _));
    (reflexivity || discriminate).
Defined.
